(** * TopoModelX tutorial notebooks: training / evaluation loops

    A shallow embedding of the Python code of the three tutorial notebooks

    - [tutorials/cell/ccxn_train.ipynb]        (CCXN, cell complexes),
    - [tutorials/hypergraph/template_train.ipynb] (TemplateNN, hypergraphs),
    - the simplicial HSN notebook               (HSN, node classification),

    under exact real arithmetic: a tensor entry is a real number, or, where
    the code itself deals with it ([torch.nanmean], [torch.isnan]), the value
    NaN.  Rounding, overflow and infinities of IEEE floats are not modelled:
    the statements below are about features that are finite numbers or NaN
    and about exact sums and quotients. *)

From Stdlib Require Import Reals Lra Lia List ZArith QArith Qround Bool.
Import ListNotations.
Close Scope Q_scope.

Set Implicit Arguments.

(* ================================================================== *)
(** * Scalars *)
(* ================================================================== *)

Module Scalar.

(** An entry of a float tensor: a real number or NaN. *)
Inductive fval : Type :=
| Num (r : R)
| NaN.

(** [torch.isnan] on one entry. *)
Definition isnan (v : fval) : bool :=
  match v with NaN => true | Num _ => false end.

(** Arithmetic on entries; NaN is absorbing. *)
Definition fadd (a b : fval) : fval :=
  match a, b with Num x, Num y => Num (x + y) | _, _ => NaN end.

Definition fmul (a b : fval) : fval :=
  match a, b with Num x, Num y => Num (x * y) | _, _ => NaN end.

(** Boolean comparisons on reals ([>], [>=], [==] of the tensor library). *)
Definition Rgtb (a b : R) : bool := if Rlt_dec b a then true else false.
Definition Rgeb (a b : R) : bool := if Rle_dec b a then true else false.
Definition Reqb (a b : R) : bool := if Req_dec_T a b then true else false.

(** [torch.sigmoid] on one entry. *)
Definition sigmoid (x : R) : R := (1 / (1 + exp (- x)))%R.

(** Sum of a list of reals ([sum], the numerator of a mean). *)
Definition Rsum (l : list R) : R := fold_right Rplus 0%R l.

(** [tensor.mean()] / [np.mean] of a flat sequence: the sum over the number
    of entries; over an empty sequence the quotient is 0/0, that is NaN. *)
Definition mean (l : list R) : fval :=
  match l with
  | [] => NaN
  | _ :: _ => Num (Rsum l / INR (length l))
  end.

End Scalar.
Import Scalar.

(* ================================================================== *)
(** * Run-time errors *)
(* ================================================================== *)

(** The exceptions the notebooks can raise in the modelled fragment.  None
    of them is caught: an exception aborts the run. *)
Inductive exn : Type :=
| UnboundLocalError   (* a local read before any assignment *)
| ZeroDivisionError   (* [correct / num_samples], [epoch_i % test_interval] *)
| RuntimeError        (* shapes that cannot be multiplied or broadcast *)
| IndexError          (* a reduction over, or an index into, an empty tensor *)
| ValueError.         (* an invalid argument of a library call *)

Inductive result (A : Type) : Type :=
| Ok (a : A)
| Raise (e : exn).
Arguments Ok {A} a.
Arguments Raise {A} e.

Definition bind {A B : Type} (r : result A) (k : A -> result B) : result B :=
  match r with
  | Ok a => k a
  | Raise e => Raise e
  end.

Notation "x <- c ;; k" := (bind c (fun x => k))
  (at level 61, c at next level, right associativity).

(* ================================================================== *)
(** * [torch.nn.Linear] *)
(* ================================================================== *)

Section LinearLayer.
Variable T : Type.
Variables (zero : T) (add mul : T -> T -> T).

(** Trainable parameters of a linear head: [weight] has one row per output
    feature, [bias] one entry per output feature. *)
Record LinearParams : Type := mkLinearParams {
  weight : list (list T);
  bias : list T
}.

Definition dot (w x : list T) : T :=
  fold_right add zero (map (fun wx => mul (fst wx) (snd wx)) (combine w x)).

(** One input row through [Linear(_, out_features)]: entry [i] of the
    result is [weight[i] . x + bias[i]]. *)
Definition linear_row (out_features : nat) (p : LinearParams) (x : list T)
  : list T :=
  map (fun i => add (dot (nth i (weight p) []) x) (nth i (bias p) zero))
      (seq 0 out_features).

(** A matrix [n, in_features] through the head gives [n, out_features]. *)
Definition linear (out_features : nat) (p : LinearParams)
           (X : list (list T)) : list (list T) :=
  map (linear_row out_features p) X.

(** The shape check of [torch.nn.functional.linear]: the head has
    [out_features] weight rows and [out_features] biases, and the input row
    is as wide as each weight row ([in_features]).  On a mismatch the call
    raises [RuntimeError] ("mat1 and mat2 shapes cannot be multiplied"). *)
Definition linear_shapes_ok (out_features : nat) (p : LinearParams)
           (x : list T) : bool :=
  Nat.eqb (length (weight p)) out_features &&
  Nat.eqb (length (bias p)) out_features &&
  forallb (fun w => Nat.eqb (length w) (length x)) (weight p).

Definition linear_row_checked (out_features : nat) (p : LinearParams)
           (x : list T) : result (list T) :=
  if linear_shapes_ok out_features p x
  then Ok (linear_row out_features p x)
  else Raise RuntimeError.

(** The head on the rows of a matrix, the first mismatch raising.  A
    matrix without rows has no row to check: it gives the matrix without
    rows of shape [0, out_features]. *)
Fixpoint linear_checked (out_features : nat) (p : LinearParams)
         (X : list (list T)) : result (list (list T)) :=
  match X with
  | [] => Ok []
  | x :: rest =>
      r <- linear_row_checked out_features p x ;;
      rs <- linear_checked out_features p rest ;;
      Ok (r :: rs)
  end.

End LinearLayer.

Definition linearR := @linear R 0%R Rplus Rmult.
Definition linearF := @linear fval (Num 0) fadd fmul.
Definition linear_checkedF := @linear_checked fval (Num 0) fadd fmul.

(* ================================================================== *)
(** * The CCXN network ([ccxn_train.ipynb]) *)
(* ================================================================== *)

Module CCXN.

Definition matrix : Type := list (list fval).

(** The non-NaN entries of a column. *)
Definition non_nan (col : list fval) : list R :=
  flat_map (fun v => match v with Num r => [r] | NaN => [] end) col.

(** [torch.nanmean] of one column: the mean of its non-NaN entries, NaN
    when there is none (in particular for a column of length 0). *)
Definition nanmean (col : list fval) : fval := mean (non_nan col).

(** [torch.nanmean(x, dim=0)] of a matrix of shape [n, ncols]: one mean per
    column.  The number of columns is that of the linear head that made
    [x]; it is kept apart because a matrix with no row has no row to read
    it from. *)
Definition nanmean_dim0 (ncols : nat) (x : matrix) : list fval :=
  map (fun j => nanmean (map (fun row => nth j row NaN) x)) (seq 0 ncols).

(** [v[torch.isnan(v)] = 0]: every NaN entry of [v] becomes 0, the others
    are kept. *)
Definition nan_to_zero (v : list fval) : list fval :=
  map (fun x => if isnan x then Num 0 else x) v.

(** Elementwise [+] of two vectors of the same shape. *)
Definition vadd (a b : list fval) : list fval :=
  map (fun ab => fadd (fst ab) (snd ab)) (combine a b).

Section Model.

(** Modelled from the spec: the message passing layer [CCXNLayer]
    (topomodelx.nn.cell.ccxn_layer), which the notebook imports and whose
    code is not among the sources: "a parametrized function combining a
    node/entity's own feature with aggregated neighbor features via a
    structure matrix".  It is given the [training] flag of the module
    (a [torch.nn.ModuleList] passes [train()] on to it), its parameters,
    [x_0], [x_1], [neighborhood_0_to_0], [neighborhood_1_to_2], and
    returns [(x_0, x_1, x_2)]. *)
Variable LayerParams : Type.
Variable layer :
  bool -> LayerParams -> matrix -> matrix -> matrix -> matrix ->
  matrix * matrix * matrix.

(** The module [CCXN]: the [training] flag of [torch.nn.Module], the
    stacked layers, and the three heads [Linear(in_channels_r,
    num_classes)]. *)
Record CCXN : Type := mkCCXN {
  training : bool;
  layers : list LayerParams;
  num_classes : nat;
  lin_0 : LinearParams fval;
  lin_1 : LinearParams fval;
  lin_2 : LinearParams fval
}.

(** [model.train()] and [model.eval()]. *)
Definition set_training (b : bool) (m : CCXN) : CCXN :=
  mkCCXN b (layers m) (num_classes m) (lin_0 m) (lin_1 m) (lin_2 m).

(** [for layer in self.layers: x_0, x_1, x_2 = layer(...)].  [x_2] is not
    bound before the first iteration. *)
Definition run_layers (m : CCXN) (x_0 x_1 n00 n12 : matrix)
  : matrix * matrix * option matrix :=
  fold_left
    (fun acc p =>
       let '(x_0, x_1, _) := acc in
       let '(x_0', x_1', x_2') := layer (training m) p x_0 x_1 n00 n12 in
       (x_0', x_1', Some x_2'))
    (layers m) (x_0, x_1, None).

(** The pooling of one rank: [nanmean] over the cells, then NaN to 0. *)
Definition pooled_mean (m : CCXN) (x : matrix) : list fval :=
  nan_to_zero (nanmean_dim0 (num_classes m) x).

(** [CCXN.forward].  The three heads are applied in the order of the
    source, each raising on a shape mismatch; [x_2] is read, unbound when
    there is no layer, after the first two. *)
Definition forward (m : CCXN) (x_0 x_1 neighborhood_0_to_0
                               neighborhood_1_to_2 : matrix)
  : result (list fval) :=
  let '(x_0, x_1, x_2) :=
    run_layers m x_0 x_1 neighborhood_0_to_0 neighborhood_1_to_2 in
  x_0 <- linear_checkedF (num_classes m) (lin_0 m) x_0 ;;
  x_1 <- linear_checkedF (num_classes m) (lin_1 m) x_1 ;;
  match x_2 with
  | None => Raise UnboundLocalError
  | Some x_2 =>
      x_2 <- linear_checkedF (num_classes m) (lin_2 m) x_2 ;;
      let two_dimensional_cells_mean := pooled_mean m x_2 in
      let one_dimensional_cells_mean := pooled_mean m x_1 in
      let zero_dimensional_cells_mean := pooled_mean m x_0 in
      Ok (vadd (vadd two_dimensional_cells_mean
                     one_dimensional_cells_mean)
               zero_dimensional_cells_mean)
  end.

End Model.

(** [torch.argmax] of a flat tensor: the index of the first maximal entry;
    a NaN entry counts as maximal.  An empty tensor has no argmax: the call
    raises [IndexError]. *)
Definition fgt (x best : fval) : bool :=
  match best, x with
  | NaN, _ => false
  | Num _, NaN => true
  | Num b, Num a => Rgtb a b
  end.

Fixpoint argmax_from (best_i : nat) (best : fval) (i : nat)
         (l : list fval) : nat :=
  match l with
  | [] => best_i
  | x :: t =>
      if fgt x best then argmax_from i x (S i) t
      else argmax_from best_i best (S i) t
  end.

Definition argmax (l : list fval) : result nat :=
  match l with
  | [] => Raise IndexError
  | x :: t => Ok (argmax_from 0 x 1 t)
  end.

(** [(y_hat.argmax() == y).sum().item()] for a class index [y]. *)
Definition correct_term (y_hat : list fval) (y : Z) : result nat :=
  k <- argmax y_hat ;;
  Ok (if Z.eqb (Z.of_nat k) y then 1%nat else 0%nat).

End CCXN.

(* ================================================================== *)
(** * The hypergraph network ([template_train.ipynb]) *)
(* ================================================================== *)

Module Template.

Definition matrix : Type := list (list R).

(** [torch.max(x, dim=0)[0]]: the column-wise maximum; the reduction of a
    matrix without rows raises. *)
Definition max_dim0 (x : matrix) : result (list R) :=
  match x with
  | [] => Raise IndexError
  | r :: t =>
      Ok (fold_left
            (fun acc row => map (fun ab => Rmax (fst ab) (snd ab))
                                (combine acc row))
            t r)
  end.

Section Model.

(** Modelled from the spec: the message passing layer [TemplateLayer]
    (topomodelx.nn.hypergraph.template_layer), imported by the notebook
    and absent from the sources: "a parametrized function combining a
    node/entity's own feature with aggregated neighbor features via a
    structure matrix".  Arguments: the module's [training] flag, the
    layer's parameters, [x_1], [incidence_1]. *)
Variable LayerParams : Type.
Variable layer : bool -> LayerParams -> matrix -> matrix -> matrix.

(** The module [TemplateNN]: stacked layers and [Linear(channels_edge, 1)]. *)
Record TemplateNN : Type := mkTemplateNN {
  training : bool;
  layers : list LayerParams;
  linear_p : LinearParams R
}.

Definition set_training (b : bool) (m : TemplateNN) : TemplateNN :=
  mkTemplateNN b (layers m) (linear_p m).

(** [TemplateNN.forward]. *)
Definition forward (m : TemplateNN) (x_1 incidence_1 : matrix)
  : result R :=
  let x_1 :=
    fold_left (fun x p => layer (training m) p x incidence_1)
              (layers m) x_1 in
  pooled_x <- max_dim0 x_1 ;;
  out <- linear_row_checked 0%R Rplus Rmult 1 (linear_p m) pooled_x ;;
  match map sigmoid out with
  | v :: _ => Ok v
  | [] => Raise IndexError
  end.

End Model.

Definition threshold_probability_positive_class : R := (5 / 10)%R.

(** The decision rule: [y_hat > threshold_probability_positive_class]. *)
Definition decide (y_hat : R) : bool :=
  Rgtb y_hat threshold_probability_positive_class.

(** [y.bool()] of the label tensor: non-zero is [True]. *)
Definition label_bool (y : Z) : bool := negb (Z.eqb y 0).

(** [((y_hat > threshold_probability_positive_class) == y.bool()).sum().item()],
    the same expression in the training and in the evaluation pass. *)
Definition correct_term (y_hat : R) (y : Z) : nat :=
  if Bool.eqb (decide y_hat) (label_bool y) then 1%nat else 0%nat.

End Template.

(* ================================================================== *)
(** * Python arithmetic of the loops *)
(* ================================================================== *)

(** [a / b] on two [int] counters: true division, [ZeroDivisionError] on 0. *)
Definition py_truediv (a b : nat) : result R :=
  if Nat.eqb b 0 then Raise ZeroDivisionError else Ok (INR a / INR b)%R.

(** [a % b] on [int]: the sign of the result follows the divisor, as
    [Z.modulo] does; [ZeroDivisionError] on 0. *)
Definition py_mod (a b : Z) : result Z :=
  if Z.eqb b 0 then Raise ZeroDivisionError else Ok (a mod b)%Z.

(** [range(1, n + 1)]. *)
Definition range_1 (n : Z) : list Z :=
  map Z.of_nat (seq 1 (Z.to_nat n)).

(** A line printed by a loop.  The values are kept as they are before the
    [:.4f] formatting. *)
Inductive line : Type :=
| EpochLine (epoch_i : Z) (loss : fval) (train_acc : fval)
| TestLine (test_acc : fval).

(* ================================================================== *)
(** * The per-sample training / evaluation loop
      ([ccxn_train.ipynb], [template_train.ipynb]) *)
(* ================================================================== *)

Module Loop.
Section Loop.

(** What differs between the two notebooks: the model, the optimizer
    state, the zipped sample [(x_0, x_1, ...)], its label, the
    prediction, and the library calls on them. *)
Variables Model Opt Sample Label Pred : Type.
(** [model.train()] *)
Variable train_mode : Model -> Model.
(** [y_hat = model(...)] *)
Variable forward : Model -> Sample -> result Pred.
(** [crit(y_hat, y)], read with [loss.item()] *)
Variable crit : Pred -> Label -> result R.
(** the term added to [correct] *)
Variable correct_term : Pred -> Label -> result nat.
(** [opt.zero_grad(); ...; loss.backward(); opt.step()] on one sample *)
Variable step : Model -> Opt -> Sample -> Label -> Model * Opt.

(** The per-epoch accumulators. *)
Record counters : Type := mkCounters {
  epoch_loss : list R;
  num_samples : nat;
  correct : nat
}.

Definition counters0 : counters := mkCounters [] 0 0.

(** The body of the training [for] loop, for one sample. *)
Definition train_sample (m : Model) (o : Opt) (c : counters)
           (x : Sample) (y : Label) : result (Model * Opt * counters) :=
  y_hat <- forward m x ;;
  loss <- crit y_hat y ;;
  k <- correct_term y_hat y ;;
  let '(m', o') := step m o x y in
  Ok (m', o', mkCounters (epoch_loss c ++ [loss])
                         (S (num_samples c))
                         (correct c + k)).

(** The training [for] loop; an exception leaves the state as it was
    before the sample that raised. *)
Fixpoint train_samples (m : Model) (o : Opt) (c : counters)
         (samples : list (Sample * Label))
  : Model * Opt * counters * option exn :=
  match samples with
  | [] => (m, o, c, None)
  | (x, y) :: rest =>
      match train_sample m o c x y with
      | Ok (m', o', c') => train_samples m' o' c' rest
      | Raise e => (m, o, c, Some e)
      end
  end.

(** The body of the evaluation [for] loop: [(num_samples, correct)]. *)
Definition test_sample (m : Model) (nc : nat * nat)
           (x : Sample) (y : Label) : result (nat * nat) :=
  y_hat <- forward m x ;;
  k <- correct_term y_hat y ;;
  Ok (S (fst nc), snd nc + k)%nat.

Fixpoint test_samples (m : Model) (nc : nat * nat)
         (samples : list (Sample * Label)) : result (nat * nat) :=
  match samples with
  | [] => Ok nc
  | (x, y) :: rest =>
      nc' <- test_sample m nc x y ;;
      test_samples m nc' rest
  end.

(** The block under [with torch.no_grad()]: the line it prints. *)
Definition evaluation (m : Model) (test : list (Sample * Label))
  : result line :=
  nc <- test_samples m (0, 0)%nat test ;;
  test_acc <- py_truediv (snd nc) (fst nc) ;;
  Ok (TestLine (Num test_acc)).

(** One iteration of the epoch loop: the state after it, the lines it
    printed, and the exception that ended it, if any. *)
Definition epoch (test_interval : Z) (train test : list (Sample * Label))
           (m : Model) (o : Opt) (epoch_i : Z)
  : Model * Opt * list line * option exn :=
  let '(m1, o1, c, err) := train_samples (train_mode m) o counters0 train in
  match err with
  | Some e => (m1, o1, [], Some e)
  | None =>
      match py_truediv (correct c) (num_samples c) with
      | Raise e => (m1, o1, [], Some e)
      | Ok train_acc =>
          let l1 := EpochLine epoch_i (mean (epoch_loss c)) (Num train_acc) in
          match py_mod epoch_i test_interval with
          | Raise e => (m1, o1, [l1], Some e)
          | Ok r =>
              if Z.eqb r 0 then
                match evaluation m1 test with
                | Ok l2 => (m1, o1, [l1; l2], None)
                | Raise e => (m1, o1, [l1], Some e)
                end
              else (m1, o1, [l1], None)
          end
      end
  end.

(** The epoch loop over the given epoch indices. *)
Fixpoint epochs (test_interval : Z) (train test : list (Sample * Label))
         (m : Model) (o : Opt) (idx : list Z)
  : Model * Opt * list line * option exn :=
  match idx with
  | [] => (m, o, [], None)
  | i :: rest =>
      let '(m1, o1, out1, err) := epoch test_interval train test m o i in
      match err with
      | Some e => (m1, o1, out1, Some e)
      | None =>
          let '(m2, o2, out2, err2) :=
            epochs test_interval train test m1 o1 rest in
          (m2, o2, out1 ++ out2, err2)
      end
  end.

(** [for epoch_i in range(1, num_epochs + 1): ...] *)
Definition run (num_epochs test_interval : Z)
           (train test : list (Sample * Label)) (m : Model) (o : Opt)
  : Model * Opt * list line * option exn :=
  epochs test_interval train test m o (range_1 num_epochs).

(** A training pass without exception, sample after sample: the loss
    recorded and the correctness term of each sample, computed with the
    parameters as they are when the sample is reached. *)
Inductive recorded :
  Model -> Opt -> list (Sample * Label) -> list R -> list nat ->
  Model -> Opt -> Prop :=
| recorded_nil m o : recorded m o [] [] [] m o
| recorded_cons m o x y rest y_hat loss k m' o' ls ks m'' o'' :
    forward m x = Ok y_hat ->
    crit y_hat y = Ok loss ->
    correct_term y_hat y = Ok k ->
    step m o x y = (m', o') ->
    recorded m' o' rest ls ks m'' o'' ->
    recorded m o ((x, y) :: rest) (loss :: ls) (k :: ks) m'' o''.

(** An evaluation pass without exception: the correctness term of each
    test sample, all computed with the same parameters. *)
Inductive evaluated (m : Model) : list (Sample * Label) -> list nat -> Prop :=
| evaluated_nil : evaluated m [] []
| evaluated_cons x y rest y_hat k ks :
    forward m x = Ok y_hat ->
    correct_term y_hat y = Ok k ->
    evaluated m rest ks ->
    evaluated m ((x, y) :: rest) (k :: ks).

End Loop.
End Loop.

(** The two notebooks as instances of the loop. *)
Module CCXNTrain.
Section Run.
Variable LayerParams : Type.
Variable layer :
  bool -> LayerParams -> CCXN.matrix -> CCXN.matrix -> CCXN.matrix ->
  CCXN.matrix -> CCXN.matrix * CCXN.matrix * CCXN.matrix.
Variable Opt : Type.
(** [torch.nn.CrossEntropyLoss()] *)
Variable crit : list fval -> Z -> result R.

(** A zipped sample: [(x_0, x_1, incidence_2_t, adjacency_0)]. *)
Definition sample : Type :=
  (CCXN.matrix * CCXN.matrix * CCXN.matrix * CCXN.matrix)%type.

(** [torch.optim.Adam]: backward pass and update *)
Variable step : CCXN.CCXN LayerParams -> Opt -> sample -> Z ->
                CCXN.CCXN LayerParams * Opt.

(** [model(x_0, x_1, adjacency_0, incidence_2_t)] *)
Definition call (m : CCXN.CCXN LayerParams) (s : sample) :=
  let '(x_0, x_1, incidence_2_t, adjacency_0) := s in
  CCXN.forward layer m x_0 x_1 adjacency_0 incidence_2_t.

Definition run :=
  Loop.run (CCXN.set_training true) call crit CCXN.correct_term step.
End Run.
End CCXNTrain.

Module TemplateTrain.
Section Run.
Variable LayerParams : Type.
Variable layer :
  bool -> LayerParams -> Template.matrix -> Template.matrix ->
  Template.matrix.
Variable Opt : Type.
(** [torch.nn.BCELoss()] *)
Variable crit : R -> Z -> result R.

(** A zipped sample: [(x_1, incidence_1)]. *)
Definition sample : Type := (Template.matrix * Template.matrix)%type.

(** [torch.optim.Adam]: backward pass and update *)
Variable step : Template.TemplateNN LayerParams -> Opt -> sample -> Z ->
                Template.TemplateNN LayerParams * Opt.

Definition call (m : Template.TemplateNN LayerParams) (s : sample) :=
  Template.forward layer m (fst s) (snd s).

Definition run :=
  Loop.run (Template.set_training true) call crit
           (fun y_hat y => Ok (Template.correct_term y_hat y)) step.
End Run.
End TemplateTrain.

(* ================================================================== *)
(** * The simplicial HSN notebook *)
(* ================================================================== *)

Module HSN.

Definition matrix : Type := list (list R).

(** The labels of the 34 nodes, [y = np.array([...])]. *)
Definition y : list Z :=
  [1; 1; 1; 1; 1; 1; 1; 1; 1; 0; 1; 1; 1; 1; 0; 0; 1; 1; 0; 1; 0; 1;
   0; 0; 0; 0; 0; 0; 0; 0; 0; 0; 0; 0]%Z.

(** [y_true[:, 0] = y; y_true[:, 1] = 1 - y] *)
Definition y_true : matrix := map (fun v => [IZR v; IZR (1 - v)]) y.

(** [l[-k:]]: the last [k] entries (all of them when there are fewer);
    [l[-0:]] is the whole of [l]. *)
Definition last_rows {A : Type} (k : nat) (l : list A) : list A :=
  if Nat.eqb k 0 then l else skipn (length l - k) l.

(** [y_test = y_true[:4]] and [y_train = y_true[-30:]] *)
Definition y_test : matrix := firstn 4 y_true.
Definition y_train : matrix := last_rows 30 y_true.

(** [(a == b).all(dim=1)] for two matrices with the same number of
    columns: one boolean per row.  Along the rows the shapes are broadcast
    as the tensor library does: equal lengths, or one of them 1. *)
Definition row_eq (ra rb : list R) : bool :=
  forallb (fun uv => Reqb (fst uv) (snd uv)) (combine ra rb).

Definition eq_all_dim1 (a b : matrix) : result (list bool) :=
  if Nat.eqb (length a) (length b) then
    Ok (map (fun rr => row_eq (fst rr) (snd rr)) (combine a b))
  else
    match a, b with
    | [ra], _ => Ok (map (fun rb => row_eq ra rb) b)
    | _, [rb] => Ok (map (fun ra => row_eq ra rb) a)
    | _, _ => Raise RuntimeError
    end.

(** [.float().mean().item()] of a boolean vector. *)
Definition mean_float (bs : list bool) : fval :=
  mean (map (fun b : bool => if b then 1%R else 0%R) bs).

(** [y_pred = torch.where(y_hat > 0.5, torch.tensor(1), torch.tensor(0))],
    an integer tensor read as numbers by [==]. *)
Definition y_pred_of (y_hat : matrix) : matrix :=
  map (map (fun v => if Rgtb v (5 / 10) then 1%R else 0%R)) y_hat.

(** [accuracy = (y_pred == y_hat).all(dim=1).float().mean().item()] *)
Definition train_accuracy (y_hat : matrix) : result fval :=
  bs <- eq_all_dim1 (y_pred_of y_hat) y_hat ;;
  Ok (mean_float bs).

(** [y_pred_test = torch.sigmoid(y_hat_test).ge(0.5).float()] *)
Definition y_pred_test_of (y_hat_test : matrix) : matrix :=
  map (map (fun v => if Rgeb (sigmoid v) (5 / 10) then 1%R else 0%R))
      y_hat_test.

(** [torch.eq(y_pred_test[: len(y_test)], y_test).all(dim=1).float().mean().item()] *)
Definition test_accuracy (y_hat_test : matrix) : result fval :=
  bs <- eq_all_dim1 (firstn (length y_test) (y_pred_test_of y_hat_test))
                    y_test ;;
  Ok (mean_float bs).

Section Model.

(** Modelled from the spec: the message passing layer [HSNLayer]
    (topomodelx.nn.simplicial.hsn_layer), imported by the notebook and
    absent from the sources: "a parametrized function combining a
    node/entity's own feature with aggregated neighbor features via a
    structure matrix".  Arguments: the layer's [training] flag, its
    parameters, [x_0], [incidence_1], [adjacency_0]. *)
Variable LayerParams : Type.
Variable layer :
  bool -> LayerParams -> matrix -> matrix -> matrix -> matrix.

(** The module [HSN].  [self.layers] is a plain Python list, not a
    [ModuleList]: the layers are not sub-modules, so [model.train()]
    does not reach them (their own flag stays at its initial value,
    [True]) and [model.parameters()] is the linear head only. *)
Record HSN : Type := mkHSN {
  training : bool;
  layers : list LayerParams;
  linear_p : LinearParams R
}.

Definition set_training (b : bool) (m : HSN) : HSN :=
  mkHSN b (layers m) (linear_p m).

(** The stacked layers of [HSN.forward]. *)
Definition hidden (m : HSN) (x_0 incidence_1 adjacency_0 : matrix)
  : matrix :=
  fold_left (fun x p => layer true p x incidence_1 adjacency_0)
            (layers m) x_0.

(** [HSN.forward]: [torch.sigmoid(self.linear(x_0))], shape [n_nodes, 2].
    The notebook builds the model with [channels = x_nodes.shape[-1]]; the
    head is taken on features of that width, and its shape check is left
    out here. *)
Definition forward (m : HSN) (x_0 incidence_1 adjacency_0 : matrix)
  : matrix :=
  map (map sigmoid)
      (linearR 2 (linear_p m) (hidden m x_0 incidence_1 adjacency_0)).

(** The notebook's loop. *)
Variable Opt : Type.
(** [torch.nn.functional.binary_cross_entropy_with_logits] *)
Variable bce_with_logits : matrix -> matrix -> result R.
(** [optimizer.zero_grad(); loss.backward(); optimizer.step()]: Adam on
    [model.parameters()], the parameters of the linear head. *)
Variable optimizer_step :
  HSN -> Opt -> matrix -> matrix -> matrix -> LinearParams R * Opt.
Variables x_nodes incidence_1 adjacency_0 : matrix.

Definition epoch (test_interval : Z) (m : HSN) (o : Opt) (epoch_i : Z)
  : HSN * Opt * list line * option exn :=
  let m0 := set_training true m in
  let y_hat := forward m0 x_nodes incidence_1 adjacency_0 in
  match bce_with_logits (last_rows (length y_train) y_hat) y_train with
  | Raise e => (m0, o, [], Some e)
  | Ok loss =>
      let epoch_loss := [loss] in
      let '(p1, o1) :=
        optimizer_step m0 o x_nodes incidence_1 adjacency_0 in
      let m1 := mkHSN (training m0) (layers m0) p1 in
      match train_accuracy y_hat with
      | Raise e => (m1, o1, [], Some e)
      | Ok accuracy =>
          let l1 := EpochLine epoch_i (mean epoch_loss) accuracy in
          match py_mod epoch_i test_interval with
          | Raise e => (m1, o1, [l1], Some e)
          | Ok r =>
              if Z.eqb r 0 then
                let y_hat_test :=
                  forward m1 x_nodes incidence_1 adjacency_0 in
                match test_accuracy y_hat_test with
                | Ok a => (m1, o1, [l1; TestLine a], None)
                | Raise e => (m1, o1, [l1], Some e)
                end
              else (m1, o1, [l1], None)
          end
      end
  end.

Fixpoint epochs (test_interval : Z) (m : HSN) (o : Opt) (idx : list Z)
  : HSN * Opt * list line * option exn :=
  match idx with
  | [] => (m, o, [], None)
  | i :: rest =>
      let '(m1, o1, out1, err) := epoch test_interval m o i in
      match err with
      | Some e => (m1, o1, out1, Some e)
      | None =>
          let '(m2, o2, out2, err2) := epochs test_interval m1 o1 rest in
          (m2, o2, out1 ++ out2, err2)
      end
  end.

Definition run (num_epochs test_interval : Z) (m : HSN) (o : Opt) :=
  epochs test_interval m o (range_1 num_epochs).

End Model.

End HSN.

(* ================================================================== *)
(** * [sklearn.model_selection.train_test_split(..., shuffle=False)] *)
(* ================================================================== *)

Module Split.

(** The library function the two MUTAG notebooks call, with a float
    [test_size], no [train_size] and [shuffle=False], after its
    documentation: [test_size] must lie strictly between 0 and 1;
    [n_test = ceil(test_size * n_samples)], [n_train = n_samples - n_test];
    an empty training set is refused with [ValueError]; without shuffling
    the training set is the first [n_train] samples and the test set the
    [n_test] samples after them.  The fraction is an exact rational here. *)
Definition n_test_of (test_size : Q) (n_samples : nat) : Z :=
  Qceiling (test_size * inject_Z (Z.of_nat n_samples)).

Definition train_test_split {A : Type} (l : list A) (test_size : Q)
  : result (list A * list A) :=
  if Qle_bool test_size 0 || Qle_bool 1 test_size then
    Raise ValueError
  else
    let n_samples := length l in
    let n_test := Z.to_nat (n_test_of test_size n_samples) in
    let n_train := (n_samples - n_test)%nat in
    if Nat.eqb n_train 0 then Raise ValueError
    else Ok (firstn n_train l, firstn n_test (skipn n_train l)).

(** [test_size = 0.2] *)
Definition test_size : Q := 2 # 10.

End Split.

(* ================================================================== *)
(** * Readings of a run, and concrete inputs *)
(* ================================================================== *)

(** The parts of what a run returns. *)
Definition model_of {M O : Type} (r : M * O * list line * option exn) : M :=
  fst (fst (fst r)).
Definition printed {M O : Type} (r : M * O * list line * option exn)
  : list line := snd (fst r).

(** The accuracy a line reports. *)
Definition accuracy_of (l : line) : fval :=
  match l with
  | EpochLine _ _ acc => acc
  | TestLine acc => acc
  end.

(** A row of the network's output: two sigmoid values. *)
Definition sigmoid_row (row : list R) : Prop :=
  exists a b, row = [sigmoid a; sigmoid b].

(** A complex without faces: one layer that sends no message to rank 2. *)
Definition demo_ccxn_layer (_ : bool) (_ : unit)
           (x_0 x_1 n00 n12 : CCXN.matrix)
  : CCXN.matrix * CCXN.matrix * CCXN.matrix :=
  (x_0, x_1, map (fun _ : list fval => [Num 0]) n12).

Definition demo_head : LinearParams fval :=
  mkLinearParams [[Num 1]; [Num 2]] [Num 0; Num 1].

Definition demo_ccxn : CCXN.CCXN unit :=
  CCXN.mkCCXN true [tt] 2 demo_head demo_head demo_head.

(** A hypergraph layer that hands its edge features on. *)
Definition demo_template_layer (_ : bool) (_ : unit)
           (x_1 incidence_1 : Template.matrix) : Template.matrix := x_1.

(** The node features of the KarateClub graph: the identity of each of the
    34 nodes, one-hot. *)
Definition karate_x_nodes : HSN.matrix :=
  map (fun i => map (fun j => if Nat.eqb i j then 1%R else 0%R) (seq 0 34))
      (seq 0 34).

(** A layer that hands its node features on. *)
Definition skip_layer (_ : bool) (_ : unit)
           (x_0 incidence_1 adjacency_0 : HSN.matrix) : HSN.matrix := x_0.

(** [HSN(channels=34, n_layers=10)] with a linear head of weight 0 and bias
    [(1, -1)]: every node is predicted to be of the first group. *)
Definition biased_hsn : HSN.HSN unit :=
  HSN.mkHSN true (repeat tt 10)
            (mkLinearParams [repeat 0%R 34; repeat 0%R 34] [1%R; (-1)%R]).

Definition biased_y_hat : HSN.matrix :=
  HSN.forward skip_layer biased_hsn karate_x_nodes [] [].

(** An epoch over three samples whose losses are 1, 2 and 3. *)
Definition demo_forward (m : unit) (x : R) : result R := Ok x.
Definition demo_crit (y_hat : R) (y : Z) : result R := Ok y_hat.
Definition demo_correct_term (y_hat : R) (y : Z) : result nat :=
  Ok (if Z.eqb y 1 then 1%nat else 0%nat).
Definition demo_step (m : unit) (o : unit) (x : R) (y : Z) : unit * unit :=
  (m, o).
Definition demo_train : list (R * Z) := [(1%R, 1%Z); (2%R, 0%Z); (3%R, 1%Z)].

(** The number an entry holds (0 for NaN). *)
Definition val (v : fval) : R :=
  match v with
  | Num r => r
  | NaN => 0%R
  end.

(** An entry that is a number. *)
Definition is_num (v : fval) : Prop := isnan v = false.

(** The optimizer state and the exception of what a run returns. *)
Definition opt_of {M O : Type} (r : M * O * list line * option exn) : O :=
  snd (fst (fst r)).
Definition raised_of {M O : Type} (r : M * O * list line * option exn)
  : option exn := snd r.

(** The kind of a printed line: the line of an epoch, or a test line. *)
Inductive line_kind : Type :=
| IsEpoch (epoch_i : Z)
| IsTest.

Definition kind_of (l : line) : line_kind :=
  match l with
  | EpochLine i _ _ => IsEpoch i
  | TestLine _ => IsTest
  end.

(** The lines of the epochs [idx] when nothing is raised: one line per
    epoch, followed by a test line when the index is a multiple of
    [test_interval]. *)
Definition expected_kinds (test_interval : Z) (idx : list Z)
  : list line_kind :=
  flat_map (fun i => IsEpoch i ::
                     if Z.eqb (i mod test_interval) 0 then [IsTest] else [])
           idx.

(** A line whose accuracy is a number between 0 and 1. *)
Definition unit_accuracy (l : line) : Prop :=
  exists a, accuracy_of l = Num a /\ (0 <= a <= 1)%R.

(** The training passes of [k] epochs alone, without report nor
    evaluation: the model and optimizer state they leave. *)
Module TrainingOnly.
Section TrainingOnly.

Variables Model Opt Sample Label Pred : Type.
Variable train_mode : Model -> Model.
Variable forward : Model -> Sample -> result Pred.
Variable crit : Pred -> Label -> result R.
Variable correct_term : Pred -> Label -> result nat.
Variable step : Model -> Opt -> Sample -> Label -> Model * Opt.
Variable train : list (Sample * Label).

Definition pass (mo : Model * Opt) : Model * Opt :=
  fst (fst (Loop.train_samples forward crit correct_term step
                               (train_mode (fst mo)) (snd mo)
                               (Loop.counters0) train)).

Fixpoint passes (k : nat) (mo : Model * Opt) : Model * Opt :=
  match k with
  | O => mo
  | S k' => passes k' (pass mo)
  end.

End TrainingOnly.
End TrainingOnly.

(** One step of the column-wise maximum of [Template.max_dim0]. *)
Definition max_step (acc row : list R) : list R :=
  map (fun ab => Rmax (fst ab) (snd ab)) (combine acc row).

(** A loop whose model counts the optimizer steps it has had. *)
Definition counting_forward (m : nat) (x : R) : result R := Ok x.
Definition counting_step (m : nat) (o : unit) (x : R) (y : Z) : nat * unit :=
  (S m, o).
Definition demo_test : list (R * Z) := [(1%R, 1%Z); (2%R, 1%Z)].

Definition counting_run (num_epochs test_interval : Z)
           (train test : list (R * Z)) :=
  Loop.run (fun m : nat => m) counting_forward demo_crit demo_correct_term
           counting_step num_epochs test_interval train test 0%nat tt.

(** The numbers in column [j] of a matrix, from the first row to the
    last, the NaN entries left out. *)
Definition column_reals (z : CCXN.matrix) (j : nat) : list R :=
  flat_map (fun row => match nth j row NaN with
                       | Num r => [r]
                       | NaN => []
                       end) z.

(** What a rank adds to class [j] of the prediction: the arithmetic mean
    of the numbers in column [j] of its head's output, and 0 when there is
    none (no cell, or NaN only). *)
Definition rank_contribution (z : CCXN.matrix) (j : nat) : R :=
  match column_reals z j with
  | [] => 0%R
  | xs => (fold_right Rplus 0 xs / INR (length xs))%R
  end.

(** A run of [ccxn_train.ipynb] on complexes without faces, with a loss
    that is constantly 1 and an optimizer that leaves the model as it is. *)
Definition demo_ccxn_sample : CCXNTrain.sample :=
  ([[Num 1]], [[Num 3]], [], []).
Definition demo_ccxn_crit (y_hat : list fval) (y : Z) : result R := Ok 1%R.
Definition demo_ccxn_step (m : CCXN.CCXN unit) (o : unit)
           (s : CCXNTrain.sample) (y : Z) : CCXN.CCXN unit * unit := (m, o).
Definition demo_ccxn_train : list (CCXNTrain.sample * Z) :=
  [(demo_ccxn_sample, 1%Z); (demo_ccxn_sample, 0%Z)].
Definition demo_ccxn_test : list (CCXNTrain.sample * Z) :=
  [(demo_ccxn_sample, 1%Z)].
Definition demo_ccxn_run (num_epochs test_interval : Z)
           (train test : list (CCXNTrain.sample * Z)) :=
  CCXNTrain.run demo_ccxn_layer demo_ccxn_crit demo_ccxn_step
                num_epochs test_interval train test demo_ccxn tt.

(** A run of the HSN notebook on the 34 nodes, with a loss that is
    constantly 0 and an optimizer that leaves the head as it is. *)
Definition demo_hsn_run (num_epochs test_interval : Z) :=
  HSN.run skip_layer (fun _ _ : HSN.matrix => Ok 0%R)
          (fun (m : HSN.HSN unit) (o : unit) (_ _ _ : HSN.matrix) =>
             (HSN.linear_p m, o))
          karate_x_nodes [] [] num_epochs test_interval biased_hsn tt.

(** The shape of a head's parameters: the width of each row of weights
    and the number of biases.  An optimizer changes the values of the
    parameters and keeps their shape. *)
Definition head_shape (p : LinearParams R) : list nat * nat :=
  (map (@length R) (weight p), length (bias p)).

(** The head [Linear(channels, 2)] accepts the features the layers of the
    HSN compute: every row of them has [channels] entries, so that
    [self.linear(x_0)] raises nothing. *)
Definition hsn_head_accepts {P : Type}
           (layer : bool -> P -> HSN.matrix -> HSN.matrix -> HSN.matrix ->
                    HSN.matrix)
           (m : HSN.HSN P) (x_0 incidence_1 adjacency_0 : HSN.matrix)
  : bool :=
  forallb (linear_shapes_ok 2 (HSN.linear_p m))
          (HSN.hidden layer m x_0 incidence_1 adjacency_0).

(* ================================================================== *)
(** * Properties *)
(* ================================================================== *)

(** ** Scalars *)

Lemma Rgtb_true (a b : R) : Rgtb a b = true <-> (b < a)%R.
Proof. unfold Rgtb. destruct (Rlt_dec b a); split; intros; try easy. Qed.

Lemma Rgtb_false (a b : R) : Rgtb a b = false <-> (a <= b)%R.
Proof.
  unfold Rgtb. destruct (Rlt_dec b a); split; intros; try easy; lra.
Qed.

Lemma Rgeb_true (a b : R) : Rgeb a b = true <-> (b <= a)%R.
Proof. unfold Rgeb. destruct (Rle_dec b a); split; intros; try easy. Qed.

Lemma Rgeb_false (a b : R) : Rgeb a b = false <-> (a < b)%R.
Proof.
  unfold Rgeb. destruct (Rle_dec b a); split; intros; try easy; lra.
Qed.

Lemma Reqb_true (a b : R) : Reqb a b = true <-> a = b.
Proof. unfold Reqb. destruct (Req_dec_T a b); split; intros; try easy. Qed.

Lemma Reqb_false (a b : R) : Reqb a b = false <-> a <> b.
Proof. unfold Reqb. destruct (Req_dec_T a b); split; intros; try easy. Qed.

Lemma sigmoid_range (x : R) : (0 < sigmoid x < 1)%R.
Proof.
  unfold sigmoid. pose proof (exp_pos (- x)) as He.
  assert (Hd : (0 < 1 + exp (- x))%R) by lra.
  split.
  - apply Rdiv_lt_0_compat; lra.
  - apply (Rmult_lt_reg_r (1 + exp (- x))); [exact Hd|].
    unfold Rdiv. rewrite Rmult_assoc, Rinv_l by lra. lra.
Qed.

Lemma sigmoid_0 : sigmoid 0 = (1 / 2)%R.
Proof. unfold sigmoid. rewrite Ropp_0, exp_0. lra. Qed.

Lemma sigmoid_increasing (x z : R) : (x < z)%R -> (sigmoid x < sigmoid z)%R.
Proof.
  intros Hxz. unfold sigmoid.
  pose proof (exp_pos (- x)) as Hx. pose proof (exp_pos (- z)) as Hz.
  assert (He : (exp (- z) < exp (- x))%R) by (apply exp_increasing; lra).
  unfold Rdiv. rewrite !Rmult_1_l.
  apply Rinv_lt_contravar; [|lra].
  apply Rmult_lt_0_compat; lra.
Qed.

Lemma sigmoid_gt_half (x : R) : (0 < x)%R -> (1 / 2 < sigmoid x)%R.
Proof. intros H. rewrite <- sigmoid_0. now apply sigmoid_increasing. Qed.

Lemma sigmoid_lt_half (x : R) : (x < 0)%R -> (sigmoid x < 1 / 2)%R.
Proof. intros H. rewrite <- sigmoid_0. now apply sigmoid_increasing. Qed.

(** ** The pooling of [CCXN.forward] *)

Lemma nan_to_zero_length (v : list fval) :
  length (CCXN.nan_to_zero v) = length v.
Proof. unfold CCXN.nan_to_zero. now rewrite length_map. Qed.

Lemma nanmean_dim0_length (n : nat) (x : CCXN.matrix) :
  length (CCXN.nanmean_dim0 n x) = n.
Proof. unfold CCXN.nanmean_dim0. now rewrite length_map, length_seq. Qed.

Lemma nanmean_dim0_empty (n : nat) :
  CCXN.nanmean_dim0 n [] = repeat NaN n.
Proof.
  unfold CCXN.nanmean_dim0. generalize 0%nat.
  induction n as [|n IH]; intros s; simpl; [reflexivity|].
  now rewrite IH.
Qed.

Lemma nan_to_zero_repeat_nan (n : nat) :
  CCXN.nan_to_zero (repeat NaN n) = repeat (Num 0) n.
Proof. induction n as [|n IH]; simpl; [reflexivity|]. now rewrite <- IH. Qed.

Lemma vadd_length (a b : list fval) :
  length a = length b -> length (CCXN.vadd a b) = length a.
Proof.
  intros H. unfold CCXN.vadd. rewrite length_map, length_combine. lia.
Qed.

Lemma pooled_mean_length {P : Type} (m : CCXN.CCXN P) (x : CCXN.matrix) :
  length (CCXN.pooled_mean m x) = CCXN.num_classes m.
Proof.
  unfold CCXN.pooled_mean. now rewrite nan_to_zero_length, nanmean_dim0_length.
Qed.

Lemma pooled_mean_empty {P : Type} (m : CCXN.CCXN P) :
  CCXN.pooled_mean m [] = repeat (Num 0) (CCXN.num_classes m).
Proof.
  unfold CCXN.pooled_mean. now rewrite nanmean_dim0_empty, nan_to_zero_repeat_nan.
Qed.

Lemma forward_unfold {P : Type} layer (m : CCXN.CCXN P)
      (x_0 x_1 n00 n12 h_0 h_1 h_2 z_0 z_1 z_2 : CCXN.matrix) :
  CCXN.run_layers layer m x_0 x_1 n00 n12 = (h_0, h_1, Some h_2) ->
  linear_checkedF (CCXN.num_classes m) (CCXN.lin_0 m) h_0 = Ok z_0 ->
  linear_checkedF (CCXN.num_classes m) (CCXN.lin_1 m) h_1 = Ok z_1 ->
  linear_checkedF (CCXN.num_classes m) (CCXN.lin_2 m) h_2 = Ok z_2 ->
  CCXN.forward layer m x_0 x_1 n00 n12 =
  Ok (CCXN.vadd
        (CCXN.vadd (CCXN.pooled_mean m z_2) (CCXN.pooled_mean m z_1))
        (CCXN.pooled_mean m z_0)).
Proof.
  intros H H0 H1 H2. unfold CCXN.forward. rewrite H, H0. simpl.
  rewrite H1. simpl. rewrite H2. reflexivity.
Qed.

Lemma linear_checked_shape (n : nat) (p : LinearParams fval)
      (h : CCXN.matrix) :
  forall z,
    linear_checkedF n p h = Ok z ->
    length z = length h /\ Forall (fun row => length row = n) z.
Proof.
  unfold linear_checkedF.
  induction h as [|x h IH]; intros z H; simpl in H.
  - injection H as <-. split; [reflexivity|constructor].
  - unfold linear_row_checked in H.
    destruct (linear_shapes_ok n p x); simpl in H; [|discriminate].
    destruct (linear_checked (Num 0) fadd fmul n p h) as [rs|e];
      simpl in H; [|discriminate].
    injection H as <-. destruct (IH rs eq_refl) as [Hl Hall].
    split; [simpl; now rewrite Hl|].
    constructor; [|exact Hall].
    unfold linear_row. now rewrite length_map, length_seq.
Qed.

Lemma nth_map_seq {A : Type} (h : nat -> A) (n j : nat) (d : A) :
  (j < n)%nat -> nth j (map h (seq 0 n)) d = h j.
Proof.
  intros Hj. rewrite (nth_indep _ d (h 0%nat))
    by (now rewrite length_map, length_seq).
  rewrite map_nth, seq_nth by exact Hj. reflexivity.
Qed.

Lemma non_nan_column (z : CCXN.matrix) (j : nat) :
  CCXN.non_nan (map (fun row => nth j row NaN) z) = column_reals z j.
Proof.
  unfold CCXN.non_nan, column_reals.
  induction z as [|row z IH]; simpl; [reflexivity|]. now rewrite IH.
Qed.

Lemma pooled_mean_nth {P : Type} (m : CCXN.CCXN P) (z : CCXN.matrix)
      (j : nat) :
  (j < CCXN.num_classes m)%nat ->
  nth j (CCXN.pooled_mean m z) NaN = Num (rank_contribution z j).
Proof.
  intros Hj. unfold CCXN.pooled_mean, CCXN.nan_to_zero, CCXN.nanmean_dim0.
  rewrite map_map, (nth_map_seq _ _ Hj).
  unfold CCXN.nanmean, rank_contribution. rewrite non_nan_column.
  destruct (column_reals z j); reflexivity.
Qed.

Lemma vadd_nth (a b : list fval) (j : nat) :
  length a = length b -> (j < length a)%nat ->
  nth j (CCXN.vadd a b) NaN = fadd (nth j a NaN) (nth j b NaN).
Proof.
  unfold CCXN.vadd. revert b j.
  induction a as [|x a IH]; intros [|y b] [|j] Hlen Hj; simpl in *;
    try lia; try discriminate.
  - reflexivity.
  - apply IH; lia.
Qed.

(** The layer loop binds [x_2] as soon as there is one layer. *)
Lemma run_layers_bound {P : Type} layer (m : CCXN.CCXN P)
      (x_0 x_1 n00 n12 : CCXN.matrix) :
  CCXN.layers m <> [] ->
  exists h_0 h_1 h_2,
    CCXN.run_layers layer m x_0 x_1 n00 n12 = (h_0, h_1, Some h_2).
Proof.
  unfold CCXN.run_layers. intros Hne.
  destruct (CCXN.layers m) as [|p ps]; [contradiction|]. clear Hne.
  simpl. destruct (layer (CCXN.training m) p x_0 x_1 n00 n12) as [[a b] c].
  generalize a b c. clear a b c.
  induction ps as [|q ps IH]; intros a b c; simpl.
  - now exists a, b, c.
  - destruct (layer (CCXN.training m) q a b n00 n12) as [[a' b'] c'].
    apply IH.
Qed.

(** C10: the substitution of zero for the NaN entries of a pooled vector is
    idempotent: done twice, it gives what it gives done once. *)
Theorem nan_to_zero_idempotent (v : list fval) :
  CCXN.nan_to_zero (CCXN.nan_to_zero v) = CCXN.nan_to_zero v.
Proof.
  unfold CCXN.nan_to_zero. rewrite map_map. apply map_ext.
  intros [r|]; reflexivity.
Qed.

(** C4: when the layers leave a rank without cells (no faces, say) and the
    heads accept the features of the others (each gives one row of
    [num_classes] entries per cell), the mean over that rank is NaN in every
    class, the substitution turns it into the zero vector before the three
    means are added, and [forward] returns without raising: a prediction
    with one entry per class, entry [j] being the sum of what the ranks
    contribute to class [j], to which the empty rank adds 0. *)
Theorem forward_empty_rank {P : Type} layer (m : CCXN.CCXN P)
        (x_0 x_1 n00 n12 h_0 h_1 h_2 z_0 z_1 z_2 : CCXN.matrix) :
  CCXN.run_layers layer m x_0 x_1 n00 n12 = (h_0, h_1, Some h_2) ->
  linear_checkedF (CCXN.num_classes m) (CCXN.lin_0 m) h_0 = Ok z_0 ->
  linear_checkedF (CCXN.num_classes m) (CCXN.lin_1 m) h_1 = Ok z_1 ->
  linear_checkedF (CCXN.num_classes m) (CCXN.lin_2 m) h_2 = Ok z_2 ->
  let n := CCXN.num_classes m in
  (length z_0 = length h_0 /\ length z_1 = length h_1 /\
   length z_2 = length h_2 /\
   Forall (fun row => length row = n) (z_0 ++ z_1 ++ z_2)) /\
  exists y_hat,
    CCXN.forward layer m x_0 x_1 n00 n12 = Ok y_hat /\
    length y_hat = n /\
    (forall j, (j < n)%nat ->
       nth j y_hat NaN =
       Num (rank_contribution z_2 j + rank_contribution z_1 j
            + rank_contribution z_0 j)) /\
    (h_2 = [] ->
     z_2 = [] /\
     CCXN.nanmean_dim0 n z_2 = repeat NaN n /\
     CCXN.pooled_mean m z_2 = repeat (Num 0) n /\
     forall j, (j < n)%nat ->
       nth j y_hat NaN =
       Num (rank_contribution z_1 j + rank_contribution z_0 j)) /\
    (h_1 = [] ->
     z_1 = [] /\
     CCXN.nanmean_dim0 n z_1 = repeat NaN n /\
     CCXN.pooled_mean m z_1 = repeat (Num 0) n /\
     forall j, (j < n)%nat ->
       nth j y_hat NaN =
       Num (rank_contribution z_2 j + rank_contribution z_0 j)) /\
    (h_0 = [] ->
     z_0 = [] /\
     CCXN.nanmean_dim0 n z_0 = repeat NaN n /\
     CCXN.pooled_mean m z_0 = repeat (Num 0) n /\
     forall j, (j < n)%nat ->
       nth j y_hat NaN =
       Num (rank_contribution z_2 j + rank_contribution z_1 j)).
Proof.
  intros Hrun H0 H1 H2 n.
  split.
  { destruct (linear_checked_shape _ _ _ H0) as [L0 A0].
    destruct (linear_checked_shape _ _ _ H1) as [L1 A1].
    destruct (linear_checked_shape _ _ _ H2) as [L2 A2].
    repeat split; try assumption.
    apply Forall_app. split; [exact A0|]. apply Forall_app. now split. }
  rewrite (forward_unfold _ _ _ _ _ _ Hrun H0 H1 H2).
  assert (L : forall z, length (CCXN.pooled_mean m z) = n)
    by (intros z; apply pooled_mean_length).
  assert (L21 : length (CCXN.vadd (CCXN.pooled_mean m z_2)
                                  (CCXN.pooled_mean m z_1)) = n)
    by (rewrite vadd_length; now rewrite !L).
  assert (Hentry : forall j, (j < n)%nat ->
            nth j (CCXN.vadd
                     (CCXN.vadd (CCXN.pooled_mean m z_2)
                                (CCXN.pooled_mean m z_1))
                     (CCXN.pooled_mean m z_0)) NaN =
            Num (rank_contribution z_2 j + rank_contribution z_1 j
                 + rank_contribution z_0 j)).
  { intros j Hj.
    rewrite vadd_nth by (rewrite ?L21, ?L; lia).
    rewrite vadd_nth by (rewrite ?L; lia).
    now rewrite !pooled_mean_nth by exact Hj. }
  eexists. split; [reflexivity|]. split.
  { rewrite vadd_length; rewrite L21; [reflexivity|now rewrite L]. }
  split; [exact Hentry|].
  split; [|split]; intros ->; simpl in *.
  - injection H2 as <-. split; [reflexivity|].
    split; [apply nanmean_dim0_empty|]. split; [apply pooled_mean_empty|].
    intros j Hj. rewrite (Hentry j Hj). f_equal.
    change (rank_contribution [] j) with 0%R. lra.
  - injection H1 as <-. split; [reflexivity|].
    split; [apply nanmean_dim0_empty|]. split; [apply pooled_mean_empty|].
    intros j Hj. rewrite (Hentry j Hj). f_equal.
    change (rank_contribution [] j) with 0%R. lra.
  - injection H0 as <-. split; [reflexivity|].
    split; [apply nanmean_dim0_empty|]. split; [apply pooled_mean_empty|].
    intros j Hj. rewrite (Hentry j Hj). f_equal.
    change (rank_contribution [] j) with 0%R. lra.
Qed.

Lemma forward_empty_rank_witness :
  exists y_hat,
    CCXN.forward demo_ccxn_layer demo_ccxn [[Num 1]] [[Num 3]] [] []
    = Ok y_hat /\
    length y_hat = 2%nat /\
    nth 0 y_hat NaN =
    Num (rank_contribution (linearF 2 demo_head [[Num 3]]) 0
         + rank_contribution (linearF 2 demo_head [[Num 1]]) 0).
Proof.
  destruct (@forward_empty_rank unit demo_ccxn_layer demo_ccxn
              [[Num 1]] [[Num 3]] [] [] [[Num 1]] [[Num 3]] []
              (linearF 2 demo_head [[Num 1]])
              (linearF 2 demo_head [[Num 3]]) []
              eq_refl eq_refl eq_refl eq_refl)
    as (_ & y_hat & Hf & Hlen & _ & H2 & _).
  exists y_hat. split; [exact Hf|]. split; [exact Hlen|].
  destruct (H2 eq_refl) as (_ & _ & _ & Hj). apply Hj. simpl. lia.
Defined.

(** ** Training mode and evaluation mode *)

Lemma fold_left_ext {A B : Type} (f g : A -> B -> A) (l : list B) (a : A) :
  (forall x b, f x b = g x b) -> fold_left f l a = fold_left g l a.
Proof.
  intros H. revert a. induction l as [|b l IH]; intros a; simpl;
    [reflexivity|]. now rewrite H, IH.
Qed.

Section ModeIndependence.

Variables PC PT PH : Type.
Variable ccxn_layer :
  bool -> PC -> CCXN.matrix -> CCXN.matrix -> CCXN.matrix -> CCXN.matrix ->
  CCXN.matrix * CCXN.matrix * CCXN.matrix.
Variable template_layer :
  bool -> PT -> Template.matrix -> Template.matrix -> Template.matrix.
Variable hsn_layer :
  bool -> PH -> HSN.matrix -> HSN.matrix -> HSN.matrix -> HSN.matrix.

(** Modelled from the spec: the layer classes are not among the sources;
    of them the spec says "no stochastic layers present" and, of the
    training mode, "enables any training-only behavior in layers, e.g.
    dropout - none present here beyond mode flag".  So a layer computes the
    same function whatever its [training] flag. *)
Hypothesis ccxn_layer_mode :
  forall b b' p x_0 x_1 n00 n12,
    ccxn_layer b p x_0 x_1 n00 n12 = ccxn_layer b' p x_0 x_1 n00 n12.
Hypothesis template_layer_mode :
  forall b b' p x_1 incidence_1,
    template_layer b p x_1 incidence_1 = template_layer b' p x_1 incidence_1.

Lemma ccxn_run_layers_mode (b b' : bool) (m : CCXN.CCXN PC)
      (x_0 x_1 n00 n12 : CCXN.matrix) :
  CCXN.run_layers ccxn_layer (CCXN.set_training b m) x_0 x_1 n00 n12 =
  CCXN.run_layers ccxn_layer (CCXN.set_training b' m) x_0 x_1 n00 n12.
Proof.
  unfold CCXN.run_layers. simpl. apply fold_left_ext.
  intros [[a c] d] p. now rewrite (ccxn_layer_mode b b').
Qed.

(** C8: with the parameters frozen, each of the three networks computes the
    same prediction in training mode ([model.train()]) and in evaluation
    mode ([model.eval()]): [forward] does not depend on the mode flag. *)
Theorem forward_mode_independent :
  (forall (m : CCXN.CCXN PC) x_0 x_1 n00 n12,
      CCXN.forward ccxn_layer (CCXN.set_training true m) x_0 x_1 n00 n12 =
      CCXN.forward ccxn_layer (CCXN.set_training false m) x_0 x_1 n00 n12) /\
  (forall (m : Template.TemplateNN PT) x_1 incidence_1,
      Template.forward template_layer (Template.set_training true m)
                       x_1 incidence_1 =
      Template.forward template_layer (Template.set_training false m)
                       x_1 incidence_1) /\
  (forall (m : HSN.HSN PH) x_0 incidence_1 adjacency_0,
      HSN.forward hsn_layer (HSN.set_training true m)
                  x_0 incidence_1 adjacency_0 =
      HSN.forward hsn_layer (HSN.set_training false m)
                  x_0 incidence_1 adjacency_0).
Proof.
  split; [|split].
  - intros m x_0 x_1 n00 n12. unfold CCXN.forward.
    rewrite (ccxn_run_layers_mode true false). reflexivity.
  - intros m x_1 incidence_1. unfold Template.forward. simpl.
    rewrite (fold_left_ext
               (fun x p => template_layer true p x incidence_1)
               (fun x p => template_layer false p x incidence_1));
      [reflexivity|].
    intros x p. apply template_layer_mode.
  - intros m x_0 incidence_1 adjacency_0. reflexivity.
Qed.

End ModeIndependence.

(** ** No epoch *)

(** C9: with [num_epochs = 0] the epoch loop of each notebook makes no
    iteration: nothing is printed (no epoch line, no test line), nothing is
    raised, and the model and the optimizer state are the ones given. *)
Theorem run_zero_epochs :
  (forall Model Opt Sample Label Pred
          (train_mode : Model -> Model)
          (forward : Model -> Sample -> result Pred)
          (crit : Pred -> Label -> result R)
          (correct_term : Pred -> Label -> result nat)
          (step : Model -> Opt -> Sample -> Label -> Model * Opt)
          test_interval train test m o,
      Loop.run train_mode forward crit correct_term step
               0 test_interval train test m o = (m, o, [], None)) /\
  (forall P layer Opt crit step test_interval train test m o,
      @CCXNTrain.run P layer Opt crit step 0 test_interval train test m o
      = (m, o, [], None)) /\
  (forall P layer Opt crit step test_interval train test m o,
      @TemplateTrain.run P layer Opt crit step 0 test_interval train test m o
      = (m, o, [], None)) /\
  (forall P layer Opt bce step x_nodes incidence_1 adjacency_0
          test_interval m o,
      @HSN.run P layer Opt bce step x_nodes incidence_1 adjacency_0
               0 test_interval m o = (m, o, [], None)).
Proof.
  repeat apply conj; intros; unfold CCXNTrain.run, TemplateTrain.run, Loop.run,
    HSN.run, range_1; reflexivity.
Qed.

(** ** The per-sample loop: what an epoch reports *)

Section LoopProperties.

Variables Model Opt Sample Label Pred : Type.
Variable train_mode : Model -> Model.
Variable forward : Model -> Sample -> result Pred.
Variable crit : Pred -> Label -> result R.
Variable correct_term : Pred -> Label -> result nat.
Variable step : Model -> Opt -> Sample -> Label -> Model * Opt.

Local Abbreviation train_samples := (Loop.train_samples forward crit correct_term step).
Local Abbreviation test_samples := (Loop.test_samples forward correct_term).
Local Abbreviation evaluation := (Loop.evaluation forward correct_term).
Local Abbreviation epoch := (Loop.epoch train_mode forward crit correct_term step).
Local Abbreviation recorded := (Loop.recorded forward crit correct_term step).
Local Abbreviation evaluated := (Loop.evaluated forward correct_term).

Lemma recorded_length m o samples ls ks m' o' :
  recorded m o samples ls ks m' o' ->
  length ls = length samples /\ length ks = length samples.
Proof.
  induction 1 as [| ? ? ? ? ? ? ? ? ? ? ? ? ? ? _ _ _ _ _ [IHl IHk]]; simpl;
    [split; reflexivity|]. split; congruence.
Qed.

Lemma train_samples_recorded m o samples ls ks m' o' :
  recorded m o samples ls ks m' o' ->
  forall c,
    train_samples m o c samples =
    (m', o',
     Loop.mkCounters (Loop.epoch_loss c ++ ls)
                     (Loop.num_samples c + length samples)
                     (Loop.correct c + list_sum ks),
     None).
Proof.
  induction 1 as [m o | m o x y rest y_hat loss k m' o' ls ks m'' o''
                          Hf Hc Hk Hs Hrec IH]; intros c; simpl.
  - rewrite app_nil_r, !Nat.add_0_r. now destruct c.
  - unfold Loop.train_sample. rewrite Hf. simpl. rewrite Hc. simpl.
    rewrite Hk. simpl. rewrite Hs. rewrite IH. simpl.
    rewrite <- app_assoc. simpl.
    replace (S (Loop.num_samples c + length rest))
      with (Loop.num_samples c + S (length rest))%nat by lia.
    replace (Loop.correct c + k + list_sum ks)%nat
      with (Loop.correct c + (k + list_sum ks))%nat by lia.
    reflexivity.
Qed.

Lemma evaluated_length m samples ks :
  evaluated m samples ks -> length ks = length samples.
Proof. induction 1; simpl; [reflexivity|]. lia. Qed.

Lemma test_samples_evaluated m samples ks :
  evaluated m samples ks ->
  forall nc,
    test_samples m nc samples =
    Ok (fst nc + length samples, snd nc + list_sum ks)%nat.
Proof.
  induction 1 as [| x y rest y_hat k ks Hf Hk Hev IH]; intros [n c]; simpl.
  - now rewrite !Nat.add_0_r.
  - unfold Loop.test_sample. rewrite Hf. simpl. rewrite Hk. simpl.
    rewrite IH. simpl.
    replace (S (n + length rest)) with (n + S (length rest))%nat by lia.
    replace (c + k + list_sum ks)%nat with (c + (k + list_sum ks))%nat by lia.
    reflexivity.
Qed.

Lemma py_truediv_pos (a b : nat) :
  b <> 0%nat -> py_truediv a b = Ok (INR a / INR b)%R.
Proof.
  intros H. unfold py_truediv. destruct (Nat.eqb_spec b 0);
    [contradiction|reflexivity].
Qed.

Lemma mean_nonempty (l : list R) :
  l <> [] -> mean l = Num (Rsum l / INR (length l)).
Proof. destruct l; [contradiction|reflexivity]. Qed.

(** C7: after an epoch whose training pass raised nothing on a non-empty
    training set, the epoch line carries, as loss, the arithmetic mean of
    the losses recorded for the samples of that epoch and, as training
    accuracy, [correct] over the number of samples processed; for the
    recorded losses [1.0, 2.0, 3.0] the reported loss is 2.0. *)
Theorem epoch_report test_interval train test m o epoch_i ls ks m1 o1 :
  recorded (train_mode m) o train ls ks m1 o1 ->
  train <> [] ->
  exists loss_reported acc_reported tail err,
    epoch test_interval train test m o epoch_i =
    (m1, o1, EpochLine epoch_i loss_reported acc_reported :: tail, err) /\
    loss_reported = mean ls /\
    loss_reported = Num (Rsum ls / INR (length train)) /\
    acc_reported = Num (INR (list_sum ks) / INR (length train)) /\
    (ls = [1; 2; 3]%R -> loss_reported = Num 2).
Proof.
  intros Hrec Hne.
  destruct (recorded_length Hrec) as [Hl Hk].
  assert (Hn : length train <> 0%nat) by (destruct train; simpl; congruence).
  exists (mean ls), (Num (INR (list_sum ks) / INR (length train))).
  unfold Loop.epoch.
  rewrite (train_samples_recorded Hrec Loop.counters0). simpl.
  rewrite (py_truediv_pos _ Hn).
  assert (Hmean : mean ls = Num (Rsum ls / INR (length train))).
  { rewrite <- Hl. apply mean_nonempty. destruct ls; simpl in *; congruence. }
  assert (H123 : ls = [1; 2; 3]%R -> mean ls = Num 2).
  { intros ->. simpl. f_equal. lra. }
  destruct (py_mod epoch_i test_interval) as [r|e].
  - destruct (Z.eqb r 0).
    + destruct (evaluation m1 test) as [l2|e].
      * exists [l2], None. auto.
      * exists [], (Some e). auto.
    + exists [], None. auto.
  - exists [], (Some e). auto.
Qed.

(** The evaluation block: it is entered exactly when
    [epoch_i % test_interval == 0]; it reads the model the training pass
    left and gives it back untouched (the state after the epoch is the
    state after the training pass); its line carries [correct / total] over
    the test samples, taken in order. *)
Lemma epoch_evaluation test_interval train test m o epoch_i ls ks m1 o1 ts :
  recorded (train_mode m) o train ls ks m1 o1 ->
  train <> [] ->
  test_interval <> 0%Z ->
  evaluated m1 test ts ->
  test <> [] ->
  let l1 := EpochLine epoch_i (mean ls)
                      (Num (INR (list_sum ks) / INR (length train))) in
  let l2 := TestLine (Num (INR (list_sum ts) / INR (length test))) in
  ((epoch_i mod test_interval = 0)%Z ->
   epoch test_interval train test m o epoch_i = (m1, o1, [l1; l2], None)) /\
  ((epoch_i mod test_interval <> 0)%Z ->
   epoch test_interval train test m o epoch_i = (m1, o1, [l1], None)).
Proof.
  intros Hrec Hne Hti Hev Hte l1 l2.
  assert (Hn : length train <> 0%nat) by (destruct train; simpl; congruence).
  assert (Hm : length test <> 0%nat) by (destruct test; simpl; congruence).
  unfold Loop.epoch.
  rewrite (train_samples_recorded Hrec Loop.counters0). simpl.
  rewrite (py_truediv_pos _ Hn).
  unfold py_mod. destruct (Z.eqb_spec test_interval 0); [contradiction|].
  split; intros Hmod.
  - rewrite Hmod. simpl. unfold Loop.evaluation.
    rewrite (test_samples_evaluated Hev (0, 0)%nat). simpl.
    rewrite (py_truediv_pos _ Hm). reflexivity.
  - destruct (Z.eqb_spec (epoch_i mod test_interval) 0); [contradiction|].
    reflexivity.
Qed.

End LoopProperties.

(** ** The correctness terms of the two per-sample notebooks *)

(** [ccxn_train.ipynb]: the term added to [correct] is 1 when the argmax of
    the prediction is the label and 0 otherwise. *)
Lemma ccxn_correct_term_spec (y_hat : list fval) (y : Z) (k : nat) :
  CCXN.correct_term y_hat y = Ok k ->
  exists c, CCXN.argmax y_hat = Ok c /\
            (k = 1%nat <-> Z.of_nat c = y) /\ (k = 0%nat <-> Z.of_nat c <> y).
Proof.
  unfold CCXN.correct_term. destruct (CCXN.argmax y_hat) as [c|e]; simpl;
    [|discriminate].
  intros H. injection H as <-. exists c. split; [reflexivity|].
  destruct (Z.eqb_spec (Z.of_nat c) y); split; split; intros; try easy.
Qed.

(** [template_train.ipynb]: the term is 1 when the thresholded prediction
    is the label read as a boolean and 0 otherwise. *)
Lemma template_correct_term_spec (y_hat : R) (y : Z) :
  (Template.correct_term y_hat y = 1%nat <->
   Template.decide y_hat = Template.label_bool y) /\
  (Template.correct_term y_hat y = 0%nat <->
   Template.decide y_hat <> Template.label_bool y).
Proof.
  unfold Template.correct_term.
  destruct (Template.decide y_hat), (Template.label_bool y); simpl;
    split; split; intros; try easy.
Qed.

(** ** The accuracy checks of the HSN notebook *)

Lemma forward_sigmoid_rows {P : Type} layer (m : HSN.HSN P)
      (x_0 incidence_1 adjacency_0 : HSN.matrix) :
  Forall sigmoid_row (HSN.forward layer m x_0 incidence_1 adjacency_0).
Proof.
  unfold HSN.forward, linearR, linear.
  induction (HSN.hidden layer m x_0 incidence_1 adjacency_0) as [|x h IH];
    simpl; constructor; [|exact IH].
  eexists. eexists. reflexivity.
Qed.

Lemma forward_length {P : Type} layer (m : HSN.HSN P)
      (x_0 incidence_1 adjacency_0 : HSN.matrix) :
  length (HSN.forward layer m x_0 incidence_1 adjacency_0) =
  length (HSN.hidden layer m x_0 incidence_1 adjacency_0).
Proof. unfold HSN.forward, linearR, linear. now rewrite !length_map. Qed.

Lemma Rsum_all_false (bs : list bool) :
  Forall (fun b => b = false) bs ->
  Rsum (map (fun b : bool => if b then 1%R else 0%R) bs) = 0%R.
Proof.
  unfold Rsum. induction 1 as [|b bs Hb _ IH]; simpl; [reflexivity|].
  rewrite Hb, IH. lra.
Qed.

Lemma mean_float_all_false (bs : list bool) :
  bs <> [] -> Forall (fun b => b = false) bs -> HSN.mean_float bs = Num 0.
Proof.
  intros Hne Hall. unfold HSN.mean_float.
  rewrite mean_nonempty by (destruct bs; simpl; congruence).
  rewrite (Rsum_all_false Hall). f_equal. unfold Rdiv. apply Rmult_0_l.
Qed.

(** A thresholded entry, 0 or 1, is never equal to a sigmoid value. *)
Lemma row_eq_pred_sigmoid (row : list R) :
  sigmoid_row row ->
  HSN.row_eq (map (fun v => if Rgtb v (5 / 10) then 1%R else 0%R) row) row
  = false.
Proof.
  intros (a & b & ->). unfold HSN.row_eq. simpl.
  pose proof (sigmoid_range a) as Ha.
  assert (E : Reqb (if Rgtb (sigmoid a) (5 / 10) then 1%R else 0%R) (sigmoid a)
              = false).
  { apply Reqb_false. destruct (Rgtb (sigmoid a) (5 / 10)); lra. }
  now rewrite E.
Qed.

Lemma eq_all_dim1_same_length (a b : HSN.matrix) :
  length a = length b ->
  HSN.eq_all_dim1 a b =
  Ok (map (fun rr => HSN.row_eq (fst rr) (snd rr)) (combine a b)).
Proof.
  intros H. unfold HSN.eq_all_dim1. now rewrite H, Nat.eqb_refl.
Qed.

Lemma train_accuracy_sigmoid (y_hat : HSN.matrix) :
  y_hat <> [] -> Forall sigmoid_row y_hat ->
  HSN.train_accuracy y_hat = Ok (Num 0).
Proof.
  intros Hne Hrows. unfold HSN.train_accuracy.
  rewrite eq_all_dim1_same_length
    by (unfold HSN.y_pred_of; now rewrite length_map).
  simpl. f_equal. apply mean_float_all_false.
  - destruct y_hat; [contradiction|]. simpl. discriminate.
  - unfold HSN.y_pred_of. clear Hne.
    induction Hrows as [|row rows Hrow _ IH]; simpl; constructor.
    + now apply row_eq_pred_sigmoid.
    + exact IH.
Qed.

(** The sigmoid of a sigmoid value is above one half: after the second
    sigmoid, [.ge(0.5)] holds of every entry. *)
Lemma y_pred_test_sigmoid (y_hat : HSN.matrix) :
  Forall sigmoid_row y_hat ->
  HSN.y_pred_test_of y_hat = repeat [1%R; 1%R] (length y_hat).
Proof.
  unfold HSN.y_pred_test_of.
  induction 1 as [|row rows (a & b & ->) _ IH]; simpl; [reflexivity|].
  rewrite IH. f_equal.
  assert (E : forall v, Rgeb (sigmoid (sigmoid v)) (5 / 10) = true).
  { intros v. apply Rgeb_true.
    pose proof (sigmoid_range v) as [Hv _].
    pose proof (sigmoid_gt_half Hv). lra. }
  now rewrite !E.
Qed.

Lemma firstn_repeat_le {A : Type} (r : A) (k n : nat) :
  (k <= n)%nat -> firstn k (repeat r n) = repeat r k.
Proof.
  intros H. replace n with (k + (n - k))%nat by lia.
  rewrite repeat_app, firstn_app, repeat_length, Nat.sub_diag. simpl.
  rewrite app_nil_r. rewrite <- (repeat_length r k) at 1. apply firstn_all.
Qed.

Lemma row_eq_11_10 : HSN.row_eq [1%R; 1%R] [1%R; 0%R] = false.
Proof.
  unfold HSN.row_eq. simpl.
  assert (E : Reqb 1 0 = false) by (apply Reqb_false; lra).
  rewrite E. apply andb_false_r.
Qed.

Lemma y_test_rows : HSN.y_test = repeat [1%R; 0%R] 4.
Proof. reflexivity. Qed.

Lemma test_accuracy_sigmoid (y_hat_test : HSN.matrix) :
  (4 <= length y_hat_test)%nat -> Forall sigmoid_row y_hat_test ->
  HSN.test_accuracy y_hat_test = Ok (Num 0).
Proof.
  intros Hlen Hrows. unfold HSN.test_accuracy.
  rewrite (y_pred_test_sigmoid Hrows), y_test_rows, repeat_length.
  rewrite (firstn_repeat_le _ Hlen).
  rewrite eq_all_dim1_same_length by now rewrite !repeat_length.
  simpl. rewrite row_eq_11_10. f_equal.
  apply mean_float_all_false; [discriminate|]. repeat constructor.
Qed.

Section HSNRun.

Variable P : Type.
Variable layer :
  bool -> P -> HSN.matrix -> HSN.matrix -> HSN.matrix -> HSN.matrix.
Variable Opt : Type.
Variable bce_with_logits : HSN.matrix -> HSN.matrix -> result R.
Variable optimizer_step :
  HSN.HSN P -> Opt -> HSN.matrix -> HSN.matrix -> HSN.matrix ->
  LinearParams R * Opt.
Variables x_nodes incidence_1 adjacency_0 : HSN.matrix.

Local Abbreviation hsn_hidden m :=
  (HSN.hidden layer m x_nodes incidence_1 adjacency_0).
Local Abbreviation hsn_forward m :=
  (HSN.forward layer m x_nodes incidence_1 adjacency_0).
Local Abbreviation hsn_epoch :=
  (HSN.epoch layer bce_with_logits optimizer_step
             x_nodes incidence_1 adjacency_0).
Local Abbreviation hsn_epochs :=
  (HSN.epochs layer bce_with_logits optimizer_step
              x_nodes incidence_1 adjacency_0).

(** The stacked layers only read [layers]: neither the mode flag nor the
    linear head changes what they compute. *)
Lemma hidden_same_layers (m m' : HSN.HSN P) :
  HSN.layers m' = HSN.layers m -> hsn_hidden m' = hsn_hidden m.
Proof. intros H. unfold HSN.hidden. now rewrite H. Qed.

Lemma train_accuracy_forward (m : HSN.HSN P) :
  (4 <= length (hsn_hidden m))%nat ->
  HSN.train_accuracy (hsn_forward m) = Ok (Num 0).
Proof.
  intros H. apply train_accuracy_sigmoid.
  - intros E. pose proof (forward_length layer m x_nodes incidence_1
                                         adjacency_0) as L.
    rewrite E in L. simpl in L. lia.
  - apply forward_sigmoid_rows.
Qed.

Lemma test_accuracy_forward (m : HSN.HSN P) :
  (4 <= length (hsn_hidden m))%nat ->
  HSN.test_accuracy (hsn_forward m) = Ok (Num 0).
Proof.
  intros H. apply test_accuracy_sigmoid.
  - now rewrite forward_length.
  - apply forward_sigmoid_rows.
Qed.

Lemma epoch_accuracy_zero test_interval (m : HSN.HSN P) (o : Opt) epoch_i :
  (4 <= length (hsn_hidden m))%nat ->
  Forall (fun l => accuracy_of l = Num 0)
         (printed (hsn_epoch test_interval m o epoch_i)) /\
  HSN.layers (model_of (hsn_epoch test_interval m o epoch_i)) = HSN.layers m.
Proof.
  intros H. unfold HSN.epoch.
  destruct (bce_with_logits _ _) as [loss|e]; [|split; [constructor|reflexivity]].
  destruct (optimizer_step _ _ _ _ _) as [p1 o1].
  rewrite train_accuracy_forward by exact H.
  destruct (py_mod epoch_i test_interval) as [r|e];
    [|split; [repeat constructor|reflexivity]].
  destruct (Z.eqb r 0); [|split; [repeat constructor|reflexivity]].
  rewrite test_accuracy_forward by exact H.
  split; [repeat constructor|reflexivity].
Qed.

Lemma epochs_accuracy_zero test_interval (idx : list Z) :
  forall (m : HSN.HSN P) (o : Opt),
    (4 <= length (hsn_hidden m))%nat ->
    Forall (fun l => accuracy_of l = Num 0)
           (printed (hsn_epochs test_interval m o idx)).
Proof.
  induction idx as [|i idx IH]; intros m o H; simpl; [constructor|].
  destruct (epoch_accuracy_zero test_interval m o i H) as [Hout Hlay].
  destruct (hsn_epoch test_interval m o i) as [[[m1 o1] out1] err] eqn:E.
  unfold printed, model_of in *. simpl in *.
  destruct err as [e|]; [exact Hout|].
  assert (H1 : (4 <= length (hsn_hidden m1))%nat)
    by now rewrite (hidden_same_layers _ _ Hlay).
  specialize (IH m1 o1 H1).
  destruct (hsn_epochs test_interval m1 o1 idx) as [[[m2 o2] out2] err2].
  simpl in *. apply Forall_app. now split.
Qed.

(** C5: in the HSN notebook, whatever the parameters of the model, the
    training accuracy and the test accuracy computed from the network's
    output are exactly 0, and so is the accuracy of every line a run prints:
    the training check compares the thresholded prediction with the sigmoid
    output itself, and the test check thresholds a second sigmoid, which
    makes every predicted row [1, 1]. *)
Theorem hsn_accuracy_always_zero (m : HSN.HSN P) :
  (4 <= length (hsn_hidden m))%nat ->
  HSN.train_accuracy (hsn_forward m) = Ok (Num 0) /\
  HSN.test_accuracy (hsn_forward m) = Ok (Num 0) /\
  Forall (fun row => exists a b, row = [a; b] /\
                                 (0 < a < 1)%R /\ (0 < b < 1)%R)
         (hsn_forward m) /\
  HSN.y_pred_test_of (hsn_forward m)
  = repeat [1%R; 1%R] (length (hsn_forward m)) /\
  forall num_epochs test_interval (o : Opt),
    Forall (fun l => accuracy_of l = Num 0)
           (printed (HSN.run layer bce_with_logits optimizer_step
                             x_nodes incidence_1 adjacency_0
                             num_epochs test_interval m o)).
Proof.
  intros H. split; [|split; [|split; [|split]]].
  - now apply train_accuracy_forward.
  - now apply test_accuracy_forward.
  - eapply Forall_impl; [|apply forward_sigmoid_rows].
    intros row (a & b & ->). exists (sigmoid a), (sigmoid b).
    split; [reflexivity|]. split; apply sigmoid_range.
  - apply y_pred_test_sigmoid, forward_sigmoid_rows.
  - intros num_epochs test_interval o. unfold HSN.run.
    now apply epochs_accuracy_zero.
Qed.

End HSNRun.

(** ** The HSN notebook at one parameter setting *)

Lemma dot_zero_weights (n : nat) (x : list R) :
  dot 0%R Rplus Rmult (repeat 0%R n) x = 0%R.
Proof.
  unfold dot. revert x. induction n as [|n IH]; intros [|v x]; simpl;
    try reflexivity. rewrite IH. lra.
Qed.

Lemma biased_y_hat_rows :
  biased_y_hat = repeat [sigmoid 1; sigmoid (-1)] 34.
Proof.
  unfold biased_y_hat, HSN.forward, linearR, linear.
  change (HSN.hidden skip_layer biased_hsn karate_x_nodes [] [])
    with karate_x_nodes.
  rewrite map_map.
  rewrite (map_ext _ (fun _ => [sigmoid 1; sigmoid (-1)])).
  - reflexivity.
  - intros x. unfold linear_row. simpl.
    rewrite !(dot_zero_weights 34). now rewrite !Rplus_0_l.
Qed.

Lemma y_pred_of_repeat (row : list R) (n : nat) :
  HSN.y_pred_of (repeat row n) =
  repeat (map (fun v => if Rgtb v (5 / 10) then 1%R else 0%R) row) n.
Proof.
  unfold HSN.y_pred_of. induction n as [|n IH]; simpl; [reflexivity|].
  now rewrite IH.
Qed.

Lemma biased_y_pred : HSN.y_pred_of biased_y_hat = repeat [1%R; 0%R] 34.
Proof.
  rewrite biased_y_hat_rows, y_pred_of_repeat. f_equal. simpl.
  assert (E1 : Rgtb (sigmoid 1) (5 / 10) = true).
  { apply Rgtb_true. pose proof (@sigmoid_gt_half 1). lra. }
  assert (E2 : Rgtb (sigmoid (-1)) (5 / 10) = false).
  { apply Rgtb_false. pose proof (@sigmoid_lt_half (-1)). lra. }
  now rewrite E1, E2.
Qed.

Lemma row_eq_10_label (v : Z) :
  v = 0%Z \/ v = 1%Z ->
  HSN.row_eq [1%R; 0%R] [IZR v; IZR (1 - v)] = Z.eqb v 1.
Proof.
  unfold HSN.row_eq. intros [-> | ->]; simpl.
  - assert (E : Reqb 1 0 = false) by (apply Reqb_false; lra). now rewrite E.
  - assert (E1 : Reqb 1 1 = true) by now apply Reqb_true.
    assert (E0 : Reqb 0 0 = true) by now apply Reqb_true.
    now rewrite E1, E0.
Qed.

Lemma rows_10_against_labels (ys : list Z) :
  Forall (fun v => v = 0%Z \/ v = 1%Z) ys ->
  map (fun rr => HSN.row_eq (fst rr) (snd rr))
      (combine (repeat [1%R; 0%R] (length ys))
               (map (fun v => [IZR v; IZR (1 - v)]) ys))
  = map (fun v => Z.eqb v 1) ys.
Proof.
  induction 1 as [|v ys Hv _ IH]; [reflexivity|].
  cbn [length repeat map combine fst snd].
  now rewrite IH, (row_eq_10_label Hv).
Qed.

Lemma y_binary : Forall (fun v => v = 0%Z \/ v = 1%Z) HSN.y.
Proof. unfold HSN.y. repeat (apply Forall_cons; [lia|]). constructor. Qed.

(** C1 (the HSN notebook departs from it): with the head of [biased_hsn]
    the decided prediction of every node is [1, 0], which is the label of
    the 17 nodes of the first group, so that the share of samples whose
    decided prediction equals the label is 1/2; the notebook's training
    accuracy, which compares the decided prediction with the sigmoid output
    and not with the label, is 0. *)
Theorem hsn_train_check_ignores_labels :
  HSN.y_pred_of biased_y_hat = repeat [1%R; 0%R] 34 /\
  nth 0 HSN.y_true [] = [1%R; 0%R] /\
  (bs <- HSN.eq_all_dim1 (HSN.y_pred_of biased_y_hat) HSN.y_true ;;
   Ok (HSN.mean_float bs)) = Ok (Num (1 / 2)) /\
  HSN.train_accuracy biased_y_hat = Ok (Num 0).
Proof.
  split; [apply biased_y_pred|]. split; [reflexivity|]. split.
  - rewrite biased_y_pred.
    rewrite eq_all_dim1_same_length by reflexivity.
    unfold HSN.y_true.
    change 34%nat with (length HSN.y).
    rewrite (rows_10_against_labels y_binary).
    unfold bind, HSN.mean_float, HSN.y. simpl. do 2 f_equal. lra.
  - rewrite biased_y_hat_rows. apply train_accuracy_sigmoid.
    + discriminate.
    + apply Forall_forall. intros row Hin.
      apply repeat_spec in Hin. subst row. now exists 1%R, (-1)%R.
Qed.

(** C6 (the HSN notebook departs from it): on one and the same output the
    decision rule of the training pass ([y_hat > 0.5]) gives the rows
    [1, 0], which are the labels of the four test nodes, and the rule of
    the evaluation block ([sigmoid(y_hat_test) >= 0.5]) gives the rows
    [1, 1]; the test accuracy reported is 0. *)
Theorem hsn_test_check_differs_from_training :
  HSN.y_pred_of biased_y_hat = repeat [1%R; 0%R] 34 /\
  firstn (length HSN.y_test) (HSN.y_pred_of biased_y_hat) = HSN.y_test /\
  HSN.y_pred_test_of biased_y_hat = repeat [1%R; 1%R] 34 /\
  HSN.test_accuracy biased_y_hat = Ok (Num 0).
Proof.
  assert (Hrows : Forall sigmoid_row biased_y_hat).
  { rewrite biased_y_hat_rows. apply Forall_forall. intros row Hin.
    apply repeat_spec in Hin. subst row. now exists 1%R, (-1)%R. }
  assert (Hlen : length biased_y_hat = 34%nat)
    by (rewrite biased_y_hat_rows; apply repeat_length).
  split; [apply biased_y_pred|]. split; [|split].
  - rewrite biased_y_pred. reflexivity.
  - rewrite (y_pred_test_sigmoid Hrows). now rewrite Hlen.
  - apply test_accuracy_sigmoid; [rewrite Hlen; lia|exact Hrows].
Qed.

(** ** The boundary of the threshold *)

Lemma template_decide_strict (y_hat : R) :
  Template.decide y_hat = true <-> (5 / 10 < y_hat)%R.
Proof. unfold Template.decide. apply Rgtb_true. Qed.

(** In [template_train.ipynb] a prediction of exactly 0.5 is the negative
    class, in the training pass and in the evaluation pass alike (both add
    [Template.correct_term]): it counts as correct for the label 0 only. *)
Lemma template_half_is_negative :
  Template.decide (5 / 10) = false /\
  Template.correct_term (5 / 10) 0 = 1%nat /\
  Template.correct_term (5 / 10) 1 = 0%nat.
Proof.
  assert (E : Template.decide (5 / 10) = false).
  { unfold Template.decide, Template.threshold_probability_positive_class.
    apply Rgtb_false. lra. }
  unfold Template.correct_term. rewrite E. repeat split.
Qed.

(** C3 (the HSN notebook departs from it): the evaluation block of the HSN
    notebook thresholds with [.ge(0.5)]: an output entry 0, whose sigmoid is
    the prediction 0.5 exactly, is classified 1, the positive class, where
    the strict comparison of the training pass classifies 0.5 as 0. *)
Theorem hsn_test_threshold_not_strict :
  sigmoid 0 = (5 / 10)%R /\
  HSN.y_pred_test_of [[0%R; 0%R]] = [[1%R; 1%R]] /\
  HSN.y_pred_of [[(5 / 10)%R; (5 / 10)%R]] = [[0%R; 0%R]] /\
  Template.decide (5 / 10) = false.
Proof.
  assert (S0 : sigmoid 0 = (5 / 10)%R) by (rewrite sigmoid_0; lra).
  split; [exact S0|]. split; [|split].
  - unfold HSN.y_pred_test_of. simpl. rewrite S0.
    assert (E : Rgeb (5 / 10) (5 / 10) = true) by (apply Rgeb_true; lra).
    now rewrite E.
  - unfold HSN.y_pred_of. simpl.
    assert (E : Rgtb (5 / 10) (5 / 10) = false) by (apply Rgtb_false; lra).
    now rewrite E.
  - apply template_half_is_negative.
Qed.

(** ** The train / test split *)

Lemma n_test_nonneg (f : Q) (n : nat) :
  (0 < f)%Q -> (0 <= Split.n_test_of f n)%Z.
Proof.
  intros Hf. unfold Split.n_test_of.
  change 0%Z with (Qceiling 0). apply Qceiling_resp_le.
  apply Qmult_le_0_compat; [now apply Qlt_le_weak|].
  change 0%Q with (inject_Z 0). rewrite <- Zle_Qle. lia.
Qed.

Lemma Qle_bool_false (a b : Q) : (b < a)%Q -> Qle_bool a b = false.
Proof.
  intros H. destruct (Qle_bool a b) eqn:E; [|reflexivity].
  apply Qle_bool_iff in E. exfalso. now apply (Qlt_not_le b a).
Qed.

Lemma train_test_split_ok {A : Type} (l : list A) (f : Q) :
  (0 < f)%Q -> (f < 1)%Q ->
  (Split.n_test_of f (length l) < Z.of_nat (length l))%Z ->
  Split.train_test_split l f =
  Ok (firstn (length l - Z.to_nat (Split.n_test_of f (length l))) l,
      skipn (length l - Z.to_nat (Split.n_test_of f (length l))) l).
Proof.
  intros H0 H1 Hlt. unfold Split.train_test_split.
  rewrite (Qle_bool_false H0), (Qle_bool_false H1). simpl.
  pose proof (n_test_nonneg (length l) H0) as Hn.
  set (k := Z.to_nat (Split.n_test_of f (length l))) in *.
  assert (Hk : (k < length l)%nat) by (unfold k; lia).
  destruct (Nat.eqb_spec (length l - k) 0); [lia|].
  do 2 f_equal. apply firstn_all2. rewrite length_skipn. lia.
Qed.

(** C2, as the code has it: [train_test_split(..., shuffle=False)], when it
    returns (the fraction lies in (0,1) and leaves at least one training
    sample, that is [ceil(test_size * n) < n]), returns a prefix and the
    suffix after it, whose concatenation is the sequence given; 20 samples
    at 0.2 give the indices 0..15 and 16..19.  The HSN notebook does not
    call it: its test rows are the first 4 of the 34 and its training rows
    the last 30, so that test followed by train is the original order. *)
Theorem split_index_stable (A : Type) (l : list A) (f : Q) :
  (0 < f)%Q -> (f < 1)%Q ->
  (Split.n_test_of f (length l) < Z.of_nat (length l))%Z ->
  (exists train test,
      Split.train_test_split l f = Ok (train, test) /\
      train ++ test = l /\
      train = firstn (length train) l /\
      test = skipn (length train) l /\
      length test = Z.to_nat (Split.n_test_of f (length l)) /\
      train <> []) /\
  Split.train_test_split (seq 0 20) Split.test_size
  = Ok (seq 0 16, seq 16 4) /\
  (HSN.y_test = firstn 4 HSN.y_true /\
   HSN.y_train = skipn 4 HSN.y_true /\
   HSN.y_test ++ HSN.y_train = HSN.y_true).
Proof.
  intros H0 H1 Hlt. split; [|split].
  - pose proof (n_test_nonneg (length l) H0) as Hn.
    rewrite (train_test_split_ok l H0 H1 Hlt).
    set (k := Z.to_nat (Split.n_test_of f (length l))) in *.
    assert (Hk : (k < length l)%nat) by (unfold k; lia).
    assert (Hlen : length (firstn (length l - k) l) = (length l - k)%nat)
      by (rewrite length_firstn; lia).
    eexists. eexists. split; [reflexivity|].
    rewrite Hlen. repeat split.
    + apply firstn_skipn.
    + rewrite length_skipn. lia.
    + intros E. rewrite E in Hlen. simpl in Hlen. lia.
  - reflexivity.
  - split; [reflexivity|]. split; [reflexivity|].
    unfold HSN.y_test. change HSN.y_train with (skipn 4 HSN.y_true).
    apply firstn_skipn.
Qed.

(** C2 as stated fails: in the HSN notebook the training rows followed by
    the test rows are not the original order, and [train_test_split] on 20
    samples raises at the fraction 0.99, which would leave no training
    sample. *)
Lemma split_not_always_prefix_suffix :
  HSN.y_train ++ HSN.y_test <> HSN.y_true /\
  Split.train_test_split (seq 0 20) (99 # 100) = Raise ValueError.
Proof.
  split; [|reflexivity].
  intros H. apply (f_equal (fun rows => nth 0 (nth 5 rows []) 0%R)) in H.
  cbn in H. lra.
Qed.

(** ** The statements at concrete inputs *)

Lemma split_index_stable_witness :
  exists train test,
    Split.train_test_split (seq 0 20) Split.test_size = Ok (train, test) /\
    train ++ test = seq 0 20.
Proof.
  destruct (@split_index_stable nat (seq 0 20) Split.test_size)
    as [(train & test & Hs & Happ & _) _].
  - reflexivity.
  - reflexivity.
  - vm_compute. reflexivity.
  - exists train, test. split; assumption.
Defined.

Lemma hsn_accuracy_always_zero_witness :
  HSN.train_accuracy
    (HSN.forward skip_layer biased_hsn karate_x_nodes [] []) = Ok (Num 0) /\
  HSN.test_accuracy
    (HSN.forward skip_layer biased_hsn karate_x_nodes [] []) = Ok (Num 0).
Proof.
  destruct (@hsn_accuracy_always_zero unit skip_layer unit
              (fun _ _ => Ok 0%R)
              (fun m o _ _ _ => (HSN.linear_p m, o))
              karate_x_nodes [] [] biased_hsn)
    as (Htrain & Htest & _).
  - change (HSN.hidden skip_layer biased_hsn karate_x_nodes [] [])
      with karate_x_nodes.
    unfold karate_x_nodes. rewrite length_map, length_seq. lia.
  - split; assumption.
Defined.

Lemma epoch_report_witness :
  exists loss_reported acc_reported tail err,
    Loop.epoch (fun m => m) demo_forward demo_crit demo_correct_term demo_step
               2 demo_train [] tt tt 1
    = (tt, tt, EpochLine 1 loss_reported acc_reported :: tail, err) /\
    loss_reported = Num 2 /\
    acc_reported = Num (INR 2 / INR 3).
Proof.
  assert (Hrec : Loop.recorded demo_forward demo_crit demo_correct_term demo_step
                          tt tt demo_train [1; 2; 3]%R [1; 0; 1]%nat tt tt).
  { unfold demo_train. repeat (econstructor; try reflexivity). }
  assert (Hne : demo_train <> []) by discriminate.
  destruct (@epoch_report unit unit R Z R (fun m => m) demo_forward demo_crit
              demo_correct_term demo_step 2%Z demo_train [] tt tt 1%Z
              [1; 2; 3]%R [1; 0; 1]%nat tt tt Hrec Hne)
    as (loss & acc & tail & err & He & _ & _ & Hacc & H123).
  exists loss, acc, tail, err. split; [exact He|]. split.
  - now apply H123.
  - exact Hacc.
Defined.

Lemma forward_mode_independent_witness :
  CCXN.forward demo_ccxn_layer (CCXN.set_training true demo_ccxn)
               [[Num 1]] [[Num 3]] [] [] =
  CCXN.forward demo_ccxn_layer (CCXN.set_training false demo_ccxn)
               [[Num 1]] [[Num 3]] [] [].
Proof.
  apply (proj1 (@forward_mode_independent unit unit unit
                  demo_ccxn_layer demo_template_layer skip_layer
                  (fun _ _ _ _ _ _ _ => eq_refl)
                  (fun _ _ _ _ _ => eq_refl))).
Defined.

(* ================================================================== *)
(** * Further properties of the networks *)
(* ================================================================== *)

(** ** The decision rule of [ccxn_train.ipynb] *)

Lemma argmax_from_spec (t : list fval) :
  forall (best_i i : nat) (b : R),
    Forall is_num t -> (best_i < i)%nat ->
    let k := CCXN.argmax_from best_i (Num b) i t in
    (k = best_i /\ Forall (fun v => (val v <= b)%R) t) \/
    ((i <= k < i + length t)%nat /\
     (b < val (nth (k - i) t NaN))%R /\
     (forall j, (j < length t)%nat ->
                (val (nth j t NaN) <= val (nth (k - i) t NaN))%R) /\
     (forall j, (j < k - i)%nat ->
                (val (nth j t NaN) < val (nth (k - i) t NaN))%R)).
Proof.
  induction t as [|x t IH]; intros best_i i b Hnum Hlt; simpl.
  - left. split; [reflexivity|constructor].
  - inversion Hnum as [|? ? Hx Ht]; subst.
    destruct x as [a|]; [|discriminate Hx]. simpl.
    destruct (Rgtb a b) eqn:E.
    + apply Rgtb_true in E.
      destruct (IH i (S i) a Ht (Nat.lt_succ_diag_r i))
        as [[Hk Hall] | (Hr & Hgt & Hle & Hbefore)].
      * right. rewrite Hk. rewrite Nat.sub_diag. simpl.
        repeat split; try lia; try lra.
        intros [|j] Hj; simpl; [lra|].
        rewrite Forall_forall in Hall. apply Hall, nth_In. lia.
      * right.
        set (k := CCXN.argmax_from i (Num a) (S i) t) in *.
        replace (k - i)%nat with (S (k - S i)) by lia. simpl.
        repeat split; try lia; try lra.
        -- intros [|j] Hj; simpl; [lra|]. apply Hle. lia.
        -- intros [|j] Hj; simpl; [lra|]. apply Hbefore. lia.
    + apply Rgtb_false in E.
      assert (Hlt' : (best_i < S i)%nat) by lia.
      destruct (IH best_i (S i) b Ht Hlt')
        as [[Hk Hall] | (Hr & Hgt & Hle & Hbefore)].
      * left. split; [exact Hk|]. constructor; [exact E|exact Hall].
      * right.
        set (k := CCXN.argmax_from best_i (Num b) (S i) t) in *.
        replace (k - i)%nat with (S (k - S i)) by lia. simpl.
        repeat split; try lia; try lra.
        -- intros [|j] Hj; simpl; [lra|]. apply Hle. lia.
        -- intros [|j] Hj; simpl; [lra|]. apply Hbefore. lia.
Qed.

(** [argmax] of an empty prediction raises; of a prediction without NaN it
    is the index of a largest entry, and the first such index: on a tie the
    class with the smaller index is the decision. *)
Theorem ccxn_argmax_first_maximum (y_hat : list fval) :
  Forall is_num y_hat ->
  match y_hat with
  | [] => CCXN.argmax y_hat = Raise IndexError
  | _ :: _ =>
      exists k,
        CCXN.argmax y_hat = Ok k /\
        (k < length y_hat)%nat /\
        (forall j, (j < length y_hat)%nat ->
                   (val (nth j y_hat NaN) <= val (nth k y_hat NaN))%R) /\
        (forall j, (j < k)%nat ->
                   (val (nth j y_hat NaN) < val (nth k y_hat NaN))%R)
  end.
Proof.
  intros Hnum. destruct y_hat as [|x t]; [reflexivity|].
  inversion Hnum as [|? ? Hx Ht]; subst.
  destruct x as [b|]; [|discriminate Hx].
  simpl. eexists. split; [reflexivity|].
  destruct (@argmax_from_spec t 0 1 b Ht Nat.lt_0_1)
    as [[Hk Hall] | (Hr & Hgt & Hle & Hbefore)].
  - rewrite Hk. simpl. repeat split; try lia.
    intros [|j] Hj; simpl; [lra|].
    rewrite Forall_forall in Hall. apply Hall, nth_In. lia.
  - set (k := CCXN.argmax_from 0 (Num b) 1 t) in *.
    replace k with (S (k - 1)) by lia. simpl.
    repeat split; try lia.
    + intros [|j] Hj; simpl; [lra|]. apply Hle. lia.
    + intros [|j] Hj; simpl; [lra|]. apply Hbefore. lia.
Qed.

Lemma ccxn_argmax_first_maximum_witness :
  exists k, CCXN.argmax [Num 2; Num 2] = Ok k /\ (k < 2)%nat.
Proof.
  assert (H : Forall is_num [Num 2; Num 2]) by (repeat constructor).
  destruct (ccxn_argmax_first_maximum H) as (k & Hk & Hlt & _).
  exists k. split; assumption.
Defined.

(** ** The pooling of [TemplateNN.forward] *)

Lemma max_step_length (acc row : list R) :
  length row = length acc -> length (max_step acc row) = length acc.
Proof.
  intros H. unfold max_step. rewrite length_map, length_combine. lia.
Qed.

Lemma max_step_nth (acc row : list R) (j : nat) :
  length row = length acc -> (j < length acc)%nat ->
  nth j (max_step acc row) 0%R = Rmax (nth j acc 0%R) (nth j row 0%R).
Proof.
  unfold max_step. revert row j.
  induction acc as [|a acc IH]; intros [|r row] [|j] Hlen Hj; simpl in *;
    try lia; try discriminate.
  - reflexivity.
  - apply IH; lia.
Qed.

Lemma fold_max_spec (t : list (list R)) :
  forall acc : list R,
    Forall (fun row => length row = length acc) t ->
    let v := fold_left max_step t acc in
    length v = length acc /\
    forall j, (j < length acc)%nat ->
      (nth j acc 0 <= nth j v 0)%R /\
      (forall row, In row t -> (nth j row 0 <= nth j v 0)%R) /\
      (nth j v 0%R = nth j acc 0%R \/
       exists row, In row t /\ nth j v 0%R = nth j row 0%R).
Proof.
  induction t as [|r t IH]; intros acc Hall; simpl.
  - split; [reflexivity|]. intros j Hj. split; [lra|]. split.
    + intros row [].
    + now left.
  - inversion Hall as [|? ? Hr Ht]; subst.
    assert (Hlen : length (max_step acc r) = length acc)
      by now apply max_step_length.
    assert (Ht' : Forall (fun row => length row = length (max_step acc r)) t).
    { eapply Forall_impl; [|exact Ht]. intros row H. now rewrite Hlen. }
    destruct (IH (max_step acc r) Ht') as [Hl Hspec].
    split; [now rewrite Hl|].
    intros j Hj.
    assert (Hj' : (j < length (max_step acc r))%nat) by now rewrite Hlen.
    destruct (Hspec j Hj') as (Hge & Hrows & Hatt).
    rewrite (@max_step_nth acc r j Hr Hj) in Hge, Hatt.
    pose proof (Rmax_l (nth j acc 0%R) (nth j r 0%R)) as Ml.
    pose proof (Rmax_r (nth j acc 0%R) (nth j r 0%R)) as Mr.
    repeat split.
    + lra.
    + intros row [<- | Hin]; [lra|now apply Hrows].
    + destruct Hatt as [Hatt | (row & Hin & Hrow)].
      * rewrite Hatt. unfold Rmax.
        destruct (Rle_dec (nth j acc 0%R) (nth j r 0%R)).
        -- right. exists r. split; [now left|reflexivity].
        -- now left.
      * right. exists row. split; [now right|exact Hrow].
Qed.

(** [torch.max(x, dim=0)[0]] on a matrix with at least one row, all rows
    of one width: a row of that width whose entry [j] is the largest entry
    of column [j], one that the column holds.  No row: the reduction raises. *)
Theorem max_dim0_column_maximum (x : Template.matrix) :
  match x with
  | [] => Template.max_dim0 x = Raise IndexError
  | r :: t =>
      Forall (fun row => length row = length r) t ->
      exists pooled_x,
        Template.max_dim0 x = Ok pooled_x /\
        length pooled_x = length r /\
        forall j, (j < length r)%nat ->
          (forall row, In row x -> (nth j row 0 <= nth j pooled_x 0)%R) /\
          (exists row, In row x /\ nth j pooled_x 0%R = nth j row 0%R)
  end.
Proof.
  destruct x as [|r t]; [reflexivity|]. intros Hall.
  exists (fold_left max_step t r). split; [reflexivity|].
  destruct (@fold_max_spec t r Hall) as [Hl Hspec].
  split; [exact Hl|]. intros j Hj.
  destruct (Hspec j Hj) as (Hge & Hrows & Hatt). split.
  - intros row [<- | Hin]; [exact Hge|now apply Hrows].
  - destruct Hatt as [Hatt | (row & Hin & Hrow)].
    + exists r. split; [now left|exact Hatt].
    + exists row. split; [now right|exact Hrow].
Qed.

Lemma max_dim0_column_maximum_witness :
  exists pooled_x,
    Template.max_dim0 [[1; 5]; [3; 2]]%R = Ok pooled_x /\
    length pooled_x = 2%nat.
Proof.
  assert (H : Forall (fun row : list R => length row = length [1; 5]%R)
                     [[3; 2]%R]) by (repeat constructor).
  destruct (@max_dim0_column_maximum [[1; 5]; [3; 2]]%R H)
    as (v & Hv & Hl & _).
  exists v. split; assumption.
Defined.

(* ================================================================== *)
(** * Further properties of the per-sample loop *)
(* ================================================================== *)

Lemma ratio_unit (c n : nat) :
  (c <= n)%nat -> n <> 0%nat -> (0 <= INR c / INR n <= 1)%R.
Proof.
  intros Hle Hn.
  assert (Hpos : (0 < INR n)%R) by (apply lt_0_INR; lia).
  pose proof (pos_INR c) as Hc. pose proof (le_INR _ _ Hle) as Hcn.
  split.
  - apply Rmult_le_pos; [exact Hc|]. left. now apply Rinv_0_lt_compat.
  - apply (Rmult_le_reg_r (INR n)); [exact Hpos|].
    unfold Rdiv. rewrite Rmult_assoc, Rinv_l by lra. lra.
Qed.

Lemma py_truediv_cases (a b : nat) :
  (b = 0%nat /\ py_truediv a b = Raise ZeroDivisionError) \/
  (b <> 0%nat /\ py_truediv a b = Ok (INR a / INR b)%R).
Proof.
  unfold py_truediv. destruct (Nat.eqb_spec b 0); [left|right]; now split.
Qed.

Section LoopFurther.

Variables Model Opt Sample Label Pred : Type.
Variable train_mode : Model -> Model.
Variable forward : Model -> Sample -> result Pred.
Variable crit : Pred -> Label -> result R.
Variable correct_term : Pred -> Label -> result nat.
Variable step : Model -> Opt -> Sample -> Label -> Model * Opt.

Local Abbreviation train_samples :=
  (Loop.train_samples forward crit correct_term step).
Local Abbreviation test_samples := (Loop.test_samples forward correct_term).
Local Abbreviation evaluation := (Loop.evaluation forward correct_term).
Local Abbreviation epoch :=
  (Loop.epoch train_mode forward crit correct_term step).
Local Abbreviation epochs :=
  (Loop.epochs train_mode forward crit correct_term step).
Local Abbreviation run :=
  (Loop.run train_mode forward crit correct_term step).
Local Abbreviation recorded := (Loop.recorded forward crit correct_term step).

(** *** The counters: [correct] never exceeds [num_samples] *)

Section Bounded.

Hypothesis correct_term_le_1 :
  forall y_hat y k, correct_term y_hat y = Ok k -> (k <= 1)%nat.

Lemma train_samples_correct_le samples :
  forall m o c m' o' c' err,
    train_samples m o c samples = (m', o', c', err) ->
    (Loop.correct c <= Loop.num_samples c)%nat ->
    (Loop.correct c' <= Loop.num_samples c')%nat.
Proof.
  induction samples as [|[x y] rest IH]; intros m o c m' o' c' err H Hle;
    simpl in H.
  - injection H as <- <- <- <-. exact Hle.
  - unfold Loop.train_sample in H.
    destruct (forward m x) as [y_hat|e]; simpl in H;
      [|injection H as <- <- <- <-; exact Hle].
    destruct (crit y_hat y) as [loss|e]; simpl in H;
      [|injection H as <- <- <- <-; exact Hle].
    destruct (correct_term y_hat y) as [k|e] eqn:Ek; simpl in H;
      [|injection H as <- <- <- <-; exact Hle].
    destruct (step m o x y) as [m1 o1].
    apply (IH _ _ _ _ _ _ _ H). simpl.
    pose proof (correct_term_le_1 Ek). lia.
Qed.

Lemma test_samples_correct_le samples :
  forall m nc nc',
    test_samples m nc samples = Ok nc' ->
    (snd nc <= fst nc)%nat -> (snd nc' <= fst nc')%nat.
Proof.
  induction samples as [|[x y] rest IH]; intros m nc nc' H Hle; simpl in H.
  - injection H as <-. exact Hle.
  - unfold Loop.test_sample in H.
    destruct (forward m x) as [y_hat|e]; simpl in H; [|discriminate].
    destruct (correct_term y_hat y) as [k|e] eqn:Ek; simpl in H;
      [|discriminate].
    apply (IH _ _ _ H). simpl.
    pose proof (correct_term_le_1 Ek). lia.
Qed.

Lemma evaluation_unit_accuracy m test l :
  evaluation m test = Ok l -> unit_accuracy l.
Proof.
  unfold Loop.evaluation. intros H.
  destruct (test_samples m (0, 0)%nat test) as [[n c]|e] eqn:E; simpl in H;
    [|discriminate].
  pose proof (test_samples_correct_le _ _ _ E (Nat.le_refl 0)) as Hle.
  simpl in Hle.
  destruct (py_truediv_cases c n) as [[_ Hd] | [Hn Hd]]; rewrite Hd in H;
    simpl in H; [discriminate|].
  injection H as <-. eexists. split; [reflexivity|]. now apply ratio_unit.
Qed.

Lemma epoch_unit_accuracy test_interval train test m o epoch_i :
  Forall unit_accuracy
         (printed (epoch test_interval train test m o epoch_i)).
Proof.
  unfold Loop.epoch.
  destruct (train_samples (train_mode m) o Loop.counters0 train)
    as [[[m1 o1] c] err] eqn:E.
  destruct err as [e|]; [constructor|].
  pose proof (train_samples_correct_le _ _ _ _ E (Nat.le_refl 0)) as Hle.
  destruct (py_truediv_cases (Loop.correct c) (Loop.num_samples c))
    as [[_ Hd] | [Hn Hd]]; rewrite Hd; [constructor|].
  assert (H1 : unit_accuracy
                 (EpochLine epoch_i (mean (Loop.epoch_loss c))
                            (Num (INR (Loop.correct c)
                                  / INR (Loop.num_samples c))))).
  { eexists. split; [reflexivity|]. now apply ratio_unit. }
  destruct (py_mod epoch_i test_interval) as [r|e];
    [|repeat constructor; exact H1].
  destruct (Z.eqb r 0); [|repeat constructor; exact H1].
  destruct (evaluation m1 test) as [l2|e] eqn:Ev;
    [|repeat constructor; exact H1].
  unfold printed. simpl. constructor; [exact H1|].
  constructor; [|constructor]. now apply (evaluation_unit_accuracy _ _ Ev).
Qed.

Lemma epochs_unit_accuracy test_interval train test (idx : list Z) :
  forall m o,
    Forall unit_accuracy
           (printed (epochs test_interval train test m o idx)).
Proof.
  induction idx as [|i idx IH]; intros m o; simpl; [constructor|].
  pose proof (epoch_unit_accuracy test_interval train test m o i) as H1.
  destruct (epoch test_interval train test m o i) as [[[m1 o1] out1] err].
  destruct err as [e|]; [exact H1|].
  specialize (IH m1 o1).
  destruct (epochs test_interval train test m1 o1 idx)
    as [[[m2 o2] out2] err2].
  unfold printed in *. simpl in *. apply Forall_app. now split.
Qed.

End Bounded.

End LoopFurther.

Lemma ccxn_correct_term_le_1 (y_hat : list fval) (y : Z) (k : nat) :
  CCXN.correct_term y_hat y = Ok k -> (k <= 1)%nat.
Proof.
  unfold CCXN.correct_term. destruct (CCXN.argmax y_hat) as [c|e]; simpl;
    [|discriminate].
  intros H. injection H as <-. destruct (Z.eqb (Z.of_nat c) y); lia.
Qed.

Lemma template_correct_term_le_1 (y_hat : R) (y : Z) (k : nat) :
  Ok (Template.correct_term y_hat y) = Ok k -> (k <= 1)%nat.
Proof.
  intros H. injection H as <-. unfold Template.correct_term.
  destruct (Bool.eqb _ _); lia.
Qed.

(** Whatever the layers, the loss, the optimizer, the data and the number of
    epochs, and whether or not the run ends with an exception: every line
    that a run of [ccxn_train.ipynb] or of [template_train.ipynb] prints
    reports an accuracy that is a number between 0 and 1. *)
Theorem notebook_accuracy_in_unit_interval :
  (forall P layer Opt crit step num_epochs test_interval train test m o,
      Forall unit_accuracy
             (printed (@CCXNTrain.run P layer Opt crit step
                                      num_epochs test_interval
                                      train test m o))) /\
  (forall P layer Opt crit step num_epochs test_interval train test m o,
      Forall unit_accuracy
             (printed (@TemplateTrain.run P layer Opt crit step
                                          num_epochs test_interval
                                          train test m o))).
Proof.
  split; intros.
  - unfold CCXNTrain.run, Loop.run.
    apply epochs_unit_accuracy. exact ccxn_correct_term_le_1.
  - unfold TemplateTrain.run, Loop.run.
    apply epochs_unit_accuracy. exact template_correct_term_le_1.
Qed.

(** ** What a run prints, and where it stops *)

Section LoopSchedule.

Variables Model Opt Sample Label Pred : Type.
Variable train_mode : Model -> Model.
Variable forward : Model -> Sample -> result Pred.
Variable crit : Pred -> Label -> result R.
Variable correct_term : Pred -> Label -> result nat.
Variable step : Model -> Opt -> Sample -> Label -> Model * Opt.

Local Abbreviation train_samples :=
  (Loop.train_samples forward crit correct_term step).
Local Abbreviation test_samples := (Loop.test_samples forward correct_term).
Local Abbreviation evaluation := (Loop.evaluation forward correct_term).
Local Abbreviation epoch :=
  (Loop.epoch train_mode forward crit correct_term step).
Local Abbreviation epochs :=
  (Loop.epochs train_mode forward crit correct_term step).
Local Abbreviation run :=
  (Loop.run train_mode forward crit correct_term step).
Local Abbreviation pass :=
  (TrainingOnly.pass train_mode forward crit correct_term step).
Local Abbreviation passes :=
  (TrainingOnly.passes train_mode forward crit correct_term step).

(** *** The state after an epoch is the state after its training pass *)

Lemma epoch_state test_interval train test m o epoch_i :
  let r := epoch test_interval train test m o epoch_i in
  (model_of r, opt_of r) = pass train (m, o).
Proof.
  unfold Loop.epoch, TrainingOnly.pass. simpl.
  destruct (train_samples (train_mode m) o Loop.counters0 train)
    as [[[m1 o1] c] err].
  destruct err as [e|]; [reflexivity|].
  destruct (py_truediv _ _); [|reflexivity].
  destruct (py_mod _ _) as [r|e]; [|reflexivity].
  destruct (Z.eqb r 0); [|reflexivity].
  destruct (evaluation m1 test); reflexivity.
Qed.

Lemma epochs_state test_interval train test (idx : list Z) :
  forall m o,
    let r := epochs test_interval train test m o idx in
    raised_of r = None ->
    (model_of r, opt_of r) = passes train (length idx) (m, o).
Proof.
  induction idx as [|i idx IH]; intros m o; simpl; [reflexivity|].
  pose proof (epoch_state test_interval train test m o i) as Hs.
  destruct (epoch test_interval train test m o i) as [[[m1 o1] out1] err].
  unfold model_of, opt_of, raised_of in *. simpl in Hs.
  destruct err as [e|]; simpl; [discriminate|].
  specialize (IH m1 o1).
  destruct (epochs test_interval train test m1 o1 idx)
    as [[[m2 o2] out2] err2].
  simpl in *. intros Herr. rewrite <- Hs. now apply IH.
Qed.

(** The test samples and the test interval have no part in the training:
    two runs from the same model and optimizer state, on the same training
    samples and for the same number of epochs, that both end without an
    exception leave the same model and the same optimizer state, whatever
    their test sets and test intervals. *)
Theorem test_data_never_trains num_epochs train m o
        test_interval test test_interval' test' :
  let r := run num_epochs test_interval train test m o in
  let r' := run num_epochs test_interval' train test' m o in
  raised_of r = None -> raised_of r' = None ->
  model_of r = model_of r' /\ opt_of r = opt_of r'.
Proof.
  intros r r' H H'. unfold r, r', Loop.run in *.
  pose proof (epochs_state _ _ _ _ _ _ H) as E.
  pose proof (epochs_state _ _ _ _ _ _ H') as E'.
  simpl in E, E'. rewrite <- E' in E. now injection E.
Qed.

(** *** An empty training set *)

Lemma range_1_pos (n : Z) :
  (0 < n)%Z -> range_1 n = 1%Z :: map Z.of_nat (seq 2 (Z.to_nat n - 1)).
Proof.
  intros H. unfold range_1.
  replace (Z.to_nat n) with (S (Z.to_nat n - 1)) at 1 by lia.
  reflexivity.
Qed.

(** With no training sample the first epoch divides by zero at
    [correct / num_samples]: the run stops there, before any line is
    printed, having only switched the model to training mode. *)
Theorem run_empty_training_set num_epochs test_interval test m o :
  (0 < num_epochs)%Z ->
  run num_epochs test_interval [] test m o =
  (train_mode m, o, [], Some ZeroDivisionError).
Proof.
  intros H. unfold Loop.run. rewrite (range_1_pos H). reflexivity.
Qed.

(** *** A run that ends without an exception *)

Lemma train_samples_count samples :
  forall m o c m' o' c',
    train_samples m o c samples = (m', o', c', None) ->
    Loop.num_samples c' = (Loop.num_samples c + length samples)%nat.
Proof.
  induction samples as [|[x y] rest IH]; intros m o c m' o' c' H; simpl in H.
  - injection H as <- <- <-. simpl. lia.
  - destruct (Loop.train_sample forward crit correct_term step m o c x y)
      as [[[m1 o1] c1]|e] eqn:E; [|discriminate].
    rewrite (IH _ _ _ _ _ _ H).
    unfold Loop.train_sample in E.
    destruct (forward m x) as [y_hat|]; simpl in E; [|discriminate].
    destruct (crit y_hat y) as [loss|]; simpl in E; [|discriminate].
    destruct (correct_term y_hat y) as [k|]; simpl in E; [|discriminate].
    destruct (step m o x y) as [m2 o2]. injection E as <- <- <-.
    simpl. lia.
Qed.

Lemma test_samples_count samples :
  forall m nc nc',
    test_samples m nc samples = Ok nc' ->
    fst nc' = (fst nc + length samples)%nat.
Proof.
  induction samples as [|[x y] rest IH]; intros m nc nc' H; simpl in H.
  - injection H as <-. simpl. lia.
  - destruct (Loop.test_sample forward correct_term m nc x y)
      as [nc1|e] eqn:E; simpl in H; [|discriminate].
    rewrite (IH _ _ _ H).
    unfold Loop.test_sample in E.
    destruct (forward m x) as [y_hat|]; simpl in E; [|discriminate].
    destruct (correct_term y_hat y) as [k|]; simpl in E; [|discriminate].
    injection E as <-. simpl. lia.
Qed.

(** An epoch that raised nothing: its training set and, if the evaluation
    was due, its test set were not empty, the test interval was not 0, and
    it printed its line, followed by a test line exactly when the epoch
    index is a multiple of the interval. *)
Lemma epoch_completed test_interval train test m o epoch_i :
  raised_of (epoch test_interval train test m o epoch_i) = None ->
  train <> [] /\ test_interval <> 0%Z /\
  ((epoch_i mod test_interval)%Z = 0%Z -> test <> []) /\
  map kind_of (printed (epoch test_interval train test m o epoch_i))
  = expected_kinds test_interval [epoch_i].
Proof.
  unfold Loop.epoch, expected_kinds.
  destruct (train_samples (train_mode m) o Loop.counters0 train)
    as [[[m1 o1] c] err] eqn:E.
  destruct err as [e|]; [discriminate|].
  pose proof (train_samples_count _ _ _ _ E) as Hn. simpl in Hn.
  destruct (py_truediv_cases (Loop.correct c) (Loop.num_samples c))
    as [[_ Hd] | [Hn0 Hd]]; rewrite Hd; [discriminate|].
  assert (Htr : train <> []) by (intros ->; simpl in Hn; lia).
  unfold py_mod. destruct (Z.eqb_spec test_interval 0) as [Ht|Ht];
    [discriminate|].
  simpl. destruct (Z.eqb_spec (epoch_i mod test_interval) 0) as [Hm|Hm].
  - unfold Loop.evaluation.
    destruct (test_samples m1 (0, 0)%nat test) as [[n k]|e] eqn:Et;
      simpl; [|discriminate].
    pose proof (test_samples_count _ _ _ Et) as Hlen. simpl in Hlen.
    destruct (py_truediv_cases k n) as [[_ Hd'] | [Hn' Hd']]; rewrite Hd';
      simpl; [discriminate|].
    intros _. repeat split; try assumption.
    intros _ ->. simpl in Hlen. lia.
  - intros _. repeat split; try assumption. intros H. contradiction.
Qed.

(** A run that ends without an exception has printed one line per epoch,
    for the epochs 1 to [num_epochs] in order, each followed by one test
    line exactly when the epoch index is a multiple of the test interval;
    if it had an epoch at all, its training set was not empty and its test
    interval not 0. *)
Theorem run_prints_schedule num_epochs test_interval train test m o :
  let r := run num_epochs test_interval train test m o in
  raised_of r = None ->
  map kind_of (printed r) =
  expected_kinds test_interval (range_1 num_epochs) /\
  ((0 < num_epochs)%Z -> train <> [] /\ test_interval <> 0%Z).
Proof.
  unfold Loop.run. split.
  - revert H. generalize (range_1 num_epochs) as idx. intros idx. revert m o.
    induction idx as [|i idx IH]; intros m o; simpl; [reflexivity|].
    pose proof (epoch_completed test_interval train test m o i) as Hc.
    destruct (epoch test_interval train test m o i)
      as [[[m1 o1] out1] err].
    destruct err as [e|]; [discriminate|].
    destruct (Hc eq_refl) as (_ & _ & _ & Hk).
    specialize (IH m1 o1).
    destruct (epochs test_interval train test m1 o1 idx)
      as [[[m2 o2] out2] err2].
    unfold raised_of, printed, expected_kinds in *. simpl in *.
    intros Herr. rewrite map_app, Hk, (IH Herr), app_nil_r. reflexivity.
  - intros Hn. rewrite (range_1_pos Hn) in H. simpl in H.
    pose proof (epoch_completed test_interval train test m o 1) as Hc.
    destruct (epoch test_interval train test m o 1)
      as [[[m1 o1] out1] err].
    destruct err as [e|]; [discriminate|].
    destruct (Hc eq_refl) as (Htr & Hti & _). now split.
Qed.

(** *** A test interval of 0 *)

(** With [test_interval = 0], once the training pass of the first epoch is
    through, its line is printed and [epoch_i % test_interval] divides by
    zero: the run has printed that one line, with the loss and accuracy
    of the pass, and leaves the model as the pass left it. *)
Theorem run_test_interval_zero num_epochs train test m o ls ks m1 o1 :
  Loop.recorded forward crit correct_term step
                (train_mode m) o train ls ks m1 o1 ->
  train <> [] -> (0 < num_epochs)%Z ->
  run num_epochs 0 train test m o =
  (m1, o1,
   [EpochLine 1 (mean ls) (Num (INR (list_sum ks) / INR (length train)))],
   Some ZeroDivisionError).
Proof.
  intros Hrec Htr Hn. unfold Loop.run. rewrite (range_1_pos Hn). simpl.
  unfold Loop.epoch.
  rewrite (train_samples_recorded Hrec Loop.counters0). simpl.
  rewrite py_truediv_pos by (destruct train; simpl; congruence).
  reflexivity.
Qed.

(** *** An empty test set *)

Lemma epoch_without_evaluation test_interval train test test' m o epoch_i :
  (epoch_i mod test_interval)%Z <> 0%Z ->
  epoch test_interval train test m o epoch_i =
  epoch test_interval train test' m o epoch_i.
Proof.
  intros Hm. unfold Loop.epoch.
  destruct (train_samples (train_mode m) o Loop.counters0 train)
    as [[[m1 o1] c] err].
  destruct err as [e|]; [reflexivity|].
  destruct (py_truediv _ _); [|reflexivity].
  unfold py_mod. destruct (Z.eqb test_interval 0); [reflexivity|].
  simpl. destruct (Z.eqb_spec (epoch_i mod test_interval) 0);
    [contradiction|reflexivity].
Qed.

Lemma epoch_empty_test test_interval train test' m o epoch_i :
  raised_of (epoch test_interval train test' m o epoch_i) = None ->
  (epoch_i mod test_interval)%Z = 0%Z ->
  let r := epoch test_interval train [] m o epoch_i in
  raised_of r = Some ZeroDivisionError /\
  map kind_of (printed r) = [IsEpoch epoch_i].
Proof.
  unfold Loop.epoch.
  destruct (train_samples (train_mode m) o Loop.counters0 train)
    as [[[m1 o1] c] err].
  destruct err as [e|]; [discriminate|].
  destruct (py_truediv _ _); [|discriminate].
  unfold py_mod. destruct (Z.eqb test_interval 0); [discriminate|].
  simpl. intros _ Hm. rewrite Hm. simpl. split; reflexivity.
Qed.

Lemma epochs_until_multiple test_interval train test' (idx : list Z) :
  forall m o j rest,
    Forall (fun i => (i mod test_interval)%Z <> 0%Z) idx ->
    (j mod test_interval)%Z = 0%Z ->
    raised_of (epochs test_interval train test' m o (idx ++ j :: rest))
    = None ->
    let r := epochs test_interval train [] m o (idx ++ j :: rest) in
    raised_of r = Some ZeroDivisionError /\
    map kind_of (printed r) = map IsEpoch (idx ++ [j]) /\
    (model_of r, opt_of r) = passes train (S (length idx)) (m, o).
Proof.
  induction idx as [|i idx IH]; intros m o j rest Hall Hj; simpl.
  - pose proof (epoch_state test_interval train [] m o j) as Hs.
    pose proof (@epoch_empty_test test_interval train test' m o j) as He.
    destruct (epoch test_interval train test' m o j)
      as [[[m1' o1'] out1'] err'].
    destruct err' as [e|]; [discriminate|].
    destruct (He eq_refl Hj) as [Hr Hp].
    destruct (epoch test_interval train [] m o j) as [[[m1 o1] out1] err].
    unfold raised_of, printed, model_of, opt_of in *. simpl in *.
    subst err. intros _. repeat split; assumption.
  - inversion Hall as [|? ? Hi Hall']; subst.
    pose proof (epoch_state test_interval train test' m o i) as Hs.
    pose proof (epoch_completed test_interval train test' m o i) as Hc.
    rewrite (@epoch_without_evaluation test_interval train [] test' m o i Hi).
    destruct (epoch test_interval train test' m o i)
      as [[[m1 o1] out1] err].
    destruct err as [e|]; [discriminate|].
    destruct (Hc eq_refl) as (_ & _ & _ & Hk).
    unfold expected_kinds in Hk. simpl in Hk.
    destruct (Z.eqb_spec (i mod test_interval) 0); [contradiction|].
    simpl in Hk.
    specialize (IH m1 o1 j rest Hall' Hj).
    destruct (epochs test_interval train test' m1 o1 (idx ++ j :: rest))
      as [[[m2' o2'] out2'] err2'].
    destruct (epochs test_interval train [] m1 o1 (idx ++ j :: rest))
      as [[[m2 o2] out2] err2].
    unfold raised_of, printed, model_of, opt_of in *. simpl in *.
    intros Herr. destruct (IH Herr) as (Hr & Hp & Hst).
    split; [exact Hr|]. split.
    + now rewrite map_app, Hp, Hk.
    + rewrite Hst. now rewrite <- Hs.
Qed.

Lemma range_1_split (t n : Z) :
  (0 < t <= n)%Z ->
  range_1 n = range_1 (t - 1) ++
              t :: map Z.of_nat (seq (S (Z.to_nat t))
                                     (Z.to_nat n - Z.to_nat t)).
Proof.
  intros H. unfold range_1.
  assert (E : Z.to_nat n =
              (Z.to_nat (t - 1) + S (Z.to_nat n - Z.to_nat t))%nat) by lia.
  rewrite E at 1. rewrite seq_app, map_app. f_equal.
  replace (1 + Z.to_nat (t - 1))%nat with (Z.to_nat t) by lia.
  simpl. f_equal. lia.
Qed.

Lemma range_1_below (t : Z) :
  Forall (fun i => (i mod t)%Z <> 0%Z) (range_1 (t - 1)).
Proof.
  apply Forall_forall. intros i Hin. unfold range_1 in Hin.
  apply in_map_iff in Hin. destruct Hin as (k & <- & Hk).
  apply in_seq in Hk. rewrite Z.mod_small; lia.
Qed.

(** With no test sample, a run whose training passes and evaluations go
    through on some test set (it ends without an exception there) goes the
    same way up to the first epoch that is a multiple of the test interval;
    at that epoch the training pass is done and its line printed, then
    [correct / num_samples] of the evaluation divides by zero.  The run has
    printed [test_interval] epoch lines and no test line, and the model has
    had [test_interval] training passes. *)
Theorem run_empty_test_set num_epochs test_interval train test' m o :
  (0 < test_interval <= num_epochs)%Z ->
  raised_of (run num_epochs test_interval train test' m o) = None ->
  let r := run num_epochs test_interval train [] m o in
  raised_of r = Some ZeroDivisionError /\
  map kind_of (printed r) = map IsEpoch (range_1 test_interval) /\
  (model_of r, opt_of r) = passes train (Z.to_nat test_interval) (m, o).
Proof.
  intros Ht. unfold Loop.run.
  rewrite (range_1_split Ht). intros Href.
  destruct (@epochs_until_multiple test_interval train test'
              (range_1 (test_interval - 1)) m o test_interval
              (map Z.of_nat (seq (S (Z.to_nat test_interval))
                                 (Z.to_nat num_epochs
                                  - Z.to_nat test_interval)))
              (range_1_below test_interval)
              (Z_mod_same_full test_interval) Href)
    as (Hr & Hp & Hst).
  split; [exact Hr|]. split.
  - rewrite Hp. f_equal.
    assert (Hself : (0 < test_interval <= test_interval)%Z) by lia.
    rewrite (range_1_split Hself).
    now rewrite Nat.sub_diag.
  - rewrite Hst. f_equal. unfold range_1. rewrite length_map, length_seq. lia.
Qed.

End LoopSchedule.

(** *** The loop at concrete inputs *)

Lemma test_data_never_trains_witness :
  model_of (counting_run 2 2 demo_train demo_test) =
  model_of (counting_run 2 1 demo_train [(3%R, 0%Z)]).
Proof.
  apply (@test_data_never_trains nat unit R Z R (fun m => m)
           counting_forward demo_crit demo_correct_term counting_step
           2%Z demo_train 0%nat tt 2%Z demo_test 1%Z [(3%R, 0%Z)]).
  - reflexivity.
  - reflexivity.
Defined.

Lemma run_empty_training_set_witness :
  counting_run 3 2 [] demo_test = (0%nat, tt, [], Some ZeroDivisionError).
Proof.
  apply (@run_empty_training_set nat unit R Z R (fun m => m)
           counting_forward demo_crit demo_correct_term counting_step
           3%Z 2%Z demo_test 0%nat tt).
  lia.
Defined.

Lemma run_prints_schedule_witness :
  map kind_of (printed (demo_ccxn_run 4 2 demo_ccxn_train demo_ccxn_test)) =
  [IsEpoch 1; IsEpoch 2; IsTest; IsEpoch 3; IsEpoch 4; IsTest].
Proof.
  unfold demo_ccxn_run, CCXNTrain.run.
  apply run_prints_schedule. reflexivity.
Defined.

Lemma run_test_interval_zero_witness :
  raised_of (demo_ccxn_run 3 0 demo_ccxn_train demo_ccxn_test)
  = Some ZeroDivisionError /\
  map kind_of (printed (demo_ccxn_run 3 0 demo_ccxn_train demo_ccxn_test))
  = [IsEpoch 1].
Proof.
  assert (Hrec : exists ls ks m1 o1,
             Loop.recorded (CCXNTrain.call demo_ccxn_layer) demo_ccxn_crit
                           CCXN.correct_term demo_ccxn_step
                           (CCXN.set_training true demo_ccxn) tt
                           demo_ccxn_train ls ks m1 o1).
  { do 4 eexists. unfold demo_ccxn_train.
    repeat (econstructor; try reflexivity). }
  destruct Hrec as (ls & ks & m1 & o1 & Hrec).
  assert (Htr : demo_ccxn_train <> []) by discriminate.
  assert (Hn : (0 < 3)%Z) by lia.
  unfold demo_ccxn_run, CCXNTrain.run.
  rewrite (@run_test_interval_zero _ _ _ _ _ _ _ _ _ _ 3%Z _ demo_ccxn_test
             _ _ _ _ _ _ Hrec Htr Hn).
  split; reflexivity.
Defined.

Lemma run_empty_test_set_witness :
  raised_of (demo_ccxn_run 4 2 demo_ccxn_train []) = Some ZeroDivisionError /\
  map kind_of (printed (demo_ccxn_run 4 2 demo_ccxn_train []))
  = [IsEpoch 1; IsEpoch 2].
Proof.
  assert (Ht : (0 < 2 <= 4)%Z) by lia.
  assert (Href : raised_of (demo_ccxn_run 4 2 demo_ccxn_train demo_ccxn_test)
                 = None) by reflexivity.
  unfold demo_ccxn_run, CCXNTrain.run in *.
  destruct (run_empty_test_set _ _ _ _ _ _ _ _ _ Ht Href)
    as (Hr & Hp & _).
  split; assumption.
Defined.

(* ================================================================== *)
(** * Further properties of the HSN notebook *)
(* ================================================================== *)

(** ** The slices of the HSN loop *)

(** [l[-k:]] as the loop uses it on the output: the last [k] rows when
    there are that many, the rest of the list being the rows before them;
    the whole list when [k] is 0 or exceeds its length.  With one row per
    node of the 34, the rows [y_hat[-len(y_train):]] the loss is computed on
    and the rows [y_pred_test[:len(y_test)]] the test accuracy is computed
    on are as many as the labels they are compared with, and together they
    are the whole output, each row in one of the two. *)
Theorem hsn_slices {A : Type} (l : list A) (k : nat) :
  ((0 < k <= length l)%nat ->
   length (HSN.last_rows k l) = k /\
   firstn (length l - k) l ++ HSN.last_rows k l = l) /\
  (k = 0%nat \/ (length l < k)%nat -> HSN.last_rows k l = l) /\
  (length l = length HSN.y_true ->
   length (firstn (length HSN.y_test) l) = length HSN.y_test /\
   length (HSN.last_rows (length HSN.y_train) l) = length HSN.y_train /\
   firstn (length HSN.y_test) l ++ HSN.last_rows (length HSN.y_train) l = l).
Proof.
  unfold HSN.last_rows. split; [|split].
  - intros Hk. destruct (Nat.eqb_spec k 0); [lia|]. split.
    + rewrite length_skipn. lia.
    + apply firstn_skipn.
  - intros [-> | Hk]; [reflexivity|].
    destruct (Nat.eqb_spec k 0); [reflexivity|].
    replace (length l - k)%nat with 0%nat by lia. reflexivity.
  - change (length HSN.y_true) with 34%nat.
    change (length HSN.y_test) with 4%nat.
    change (length HSN.y_train) with 30%nat.
    intros Hl. simpl Nat.eqb. cbv iota. rewrite Hl. simpl Nat.sub.
    split; [|split].
    + rewrite length_firstn. lia.
    + rewrite length_skipn. lia.
    + apply firstn_skipn.
Qed.

Lemma hsn_slices_witness :
  firstn (length HSN.y_test) HSN.y_true
  ++ HSN.last_rows (length HSN.y_train) HSN.y_true = HSN.y_true.
Proof.
  destruct (@hsn_slices (list R) HSN.y_true 30) as (_ & _ & H).
  destruct (H eq_refl) as (_ & _ & Hp). exact Hp.
Defined.

(* ================================================================== *)
(** * Further properties of the split *)
(* ================================================================== *)

Lemma combine_skipn {A B : Type} (n : nat) :
  forall (l : list A) (l' : list B),
    skipn n (combine l l') = combine (skipn n l) (skipn n l').
Proof.
  induction n as [|n IH]; intros [|a l] [|b l']; simpl; try reflexivity.
  - now destruct (skipn n l).
  - apply IH.
Qed.

(** The notebooks split each list on its own (features, matrices, labels)
    and zip the training parts, and the test parts, in the loops.  For
    lists of one length that is the split of the zipped samples: either
    every split raises, or the samples of the two parts are the original
    pairs, each feature with its own label, in the original order. *)
Theorem train_test_split_zip {A B : Type} (xs : list A) (ys : list B)
        (f : Q) :
  length xs = length ys ->
  Split.train_test_split (combine xs ys) f =
  match Split.train_test_split xs f, Split.train_test_split ys f with
  | Ok (x_train, x_test), Ok (y_train, y_test) =>
      Ok (combine x_train y_train, combine x_test y_test)
  | Raise e, _ => Raise e
  | _, Raise e => Raise e
  end.
Proof.
  intros Hlen. unfold Split.train_test_split.
  rewrite length_combine, <- Hlen, Nat.min_id.
  destruct (Qle_bool f 0 || Qle_bool 1 f); [reflexivity|].
  destruct (Nat.eqb _ 0); [reflexivity|].
  now rewrite combine_skipn, !combine_firstn.
Qed.

Lemma train_test_split_zip_witness :
  Split.train_test_split (combine (seq 0 5) (seq 10 5)) Split.test_size =
  Ok (combine (seq 0 4) (seq 10 4), [(4%nat, 14%nat)]).
Proof.
  rewrite (@train_test_split_zip nat nat (seq 0 5) (seq 10 5)
             Split.test_size eq_refl).
  reflexivity.
Defined.

(* ================================================================== *)
(** * The lines of a run of the HSN notebook *)
(* ================================================================== *)

Section HSNSchedule.

Variable P : Type.
Variable layer :
  bool -> P -> HSN.matrix -> HSN.matrix -> HSN.matrix -> HSN.matrix.
Variable Opt : Type.
Variable bce_with_logits : HSN.matrix -> HSN.matrix -> result R.
Variable optimizer_step :
  HSN.HSN P -> Opt -> HSN.matrix -> HSN.matrix -> HSN.matrix ->
  LinearParams R * Opt.
Variables x_nodes incidence_1 adjacency_0 : HSN.matrix.

Local Abbreviation hsn_epoch :=
  (HSN.epoch layer bce_with_logits optimizer_step
             x_nodes incidence_1 adjacency_0).
Local Abbreviation hsn_epochs :=
  (HSN.epochs layer bce_with_logits optimizer_step
              x_nodes incidence_1 adjacency_0).

Hypothesis optimizer_step_shape :
  forall (m : HSN.HSN P) (o : Opt) a b c,
    head_shape (fst (optimizer_step m o a b c)) = head_shape (HSN.linear_p m).

Lemma linear_shapes_ok_shape (p p' : LinearParams R) (x : list R) :
  head_shape p = head_shape p' ->
  linear_shapes_ok 2 p x = linear_shapes_ok 2 p' x.
Proof.
  unfold head_shape, linear_shapes_ok. intros H. injection H as Hw Hb.
  assert (Hf : forall ws : list (list R),
             forallb (fun w => Nat.eqb (length w) (length x)) ws =
             forallb (fun k => Nat.eqb k (length x)) (map (@length R) ws)).
  { induction ws as [|w ws IH]; simpl; [reflexivity|]. now rewrite IH. }
  rewrite !Hf, Hw, Hb.
  rewrite <- (length_map (@length R) (weight p)), Hw, length_map.
  reflexivity.
Qed.

Lemma hsn_epoch_completed test_interval (m : HSN.HSN P) (o : Opt) epoch_i :
  raised_of (hsn_epoch test_interval m o epoch_i) = None ->
  test_interval <> 0%Z /\
  map kind_of (printed (hsn_epoch test_interval m o epoch_i))
  = expected_kinds test_interval [epoch_i] /\
  HSN.layers (model_of (hsn_epoch test_interval m o epoch_i))
  = HSN.layers m /\
  head_shape (HSN.linear_p (model_of (hsn_epoch test_interval m o epoch_i)))
  = head_shape (HSN.linear_p m).
Proof.
  unfold HSN.epoch, expected_kinds.
  destruct (bce_with_logits _ _) as [loss|e]; [|discriminate].
  pose proof (optimizer_step_shape (HSN.set_training true m) o
                x_nodes incidence_1 adjacency_0) as Hs.
  destruct (optimizer_step _ _ _ _ _) as [p1 o1]. simpl in Hs.
  destruct (HSN.train_accuracy _) as [acc|e]; [|discriminate].
  unfold py_mod. destruct (Z.eqb_spec test_interval 0) as [Ht|Ht];
    [discriminate|].
  simpl. destruct (Z.eqb (epoch_i mod test_interval) 0).
  - destruct (HSN.test_accuracy _) as [a|e]; [|discriminate].
    intros _. repeat split; assumption.
  - intros _. repeat split; assumption.
Qed.

Lemma hsn_head_accepts_shape (m m' : HSN.HSN P) :
  HSN.layers m' = HSN.layers m ->
  head_shape (HSN.linear_p m') = head_shape (HSN.linear_p m) ->
  hsn_head_accepts layer m' x_nodes incidence_1 adjacency_0 =
  hsn_head_accepts layer m x_nodes incidence_1 adjacency_0.
Proof.
  intros Hl Hs. unfold hsn_head_accepts, HSN.hidden. rewrite Hl.
  induction (fold_left _ (HSN.layers m) x_nodes) as [|x h IH]; simpl;
    [reflexivity|].
  now rewrite IH, (linear_shapes_ok_shape x Hs).
Qed.


End HSNSchedule.

